(** * TradingView multi-tab stock scraper: a shallow embedding of
      [stock_usa.py] and the properties of its row extractor, column
      reconciler, pagination driver, tab iterator, session teardown and
      spreadsheet formatting pass.

    Conventions of the embedding.
    - Python [str] values are modelled by [string]; the text handled by the
      scraper (field identifiers, tickers, prices) is ASCII, and the string
      methods below are the ASCII restrictions of the Python ones.
    - Python [float] is IEEE binary64, modelled by the primitive [float].
    - Exceptions are modelled by a result type; [exn] lists the classes of
      [Exception] that the modelled calls raise.  Asynchronous signals
      ([KeyboardInterrupt], task cancellation) are not modelled.
    - Calls into the browser are answered by a [World]: a strategy that maps
      the history of calls made so far to the response of the next call.
    - Timing ([time.time], [asyncio.sleep]) and progress messages have no
      influence on the data and are left out, except for the teardown log. *)

From Equations Require Import Equations.
From Stdlib Require Import String Ascii List ZArith Arith Lia Bool Floats.
From Stdlib Require Import DecimalString.
Import ListNotations.

Open Scope string_scope.
Open Scope list_scope.
Open Scope nat_scope.

(** ** Exceptions *)

Inductive exn : Type :=
| PlaywrightTimeout   (* playwright TimeoutError *)
| PlaywrightError     (* any other playwright Error *)
| ValueError
| KeyError
| IndexError.

Inductive result (A : Type) : Type :=
| Ok (a : A)
| Raise (e : exn).
Arguments Ok {A} a.
Arguments Raise {A} e.

Definition rbind {A B : Type} (r : result A) (k : A -> result B) : result B :=
  match r with
  | Ok a => k a
  | Raise e => Raise e
  end.

(** ** Python string methods (ASCII) *)

Module PyStr.

Definition code (c : ascii) : nat := nat_of_ascii c.

Definition is_upper_char (c : ascii) : bool := (65 <=? code c) && (code c <=? 90).
Definition is_lower_char (c : ascii) : bool := (97 <=? code c) && (code c <=? 122).
Definition is_digit_char (c : ascii) : bool := (48 <=? code c) && (code c <=? 57).

(** [str.isspace] on one ASCII character: TAB, LF, VT, FF, CR, the four
    separators FS, GS, RS, US, and space. *)
Definition is_space_char (c : ascii) : bool :=
  ((9 <=? code c) && (code c <=? 13)) || ((28 <=? code c) && (code c <=? 32)).

Definition lower_char (c : ascii) : ascii :=
  if is_upper_char c then ascii_of_nat (code c + 32) else c.

(** [s.lower()] *)
Fixpoint lower (s : string) : string :=
  match s with
  | EmptyString => EmptyString
  | String c r => String (lower_char c) (lower r)
  end.

Fixpoint forall_chars (p : ascii -> bool) (s : string) : bool :=
  match s with
  | EmptyString => true
  | String c r => p c && forall_chars p r
  end.

Fixpoint exists_char (p : ascii -> bool) (s : string) : bool :=
  match s with
  | EmptyString => false
  | String c r => p c || exists_char p r
  end.

(** [c in s] for a one-character string [c] *)
Definition contains (c : ascii) (s : string) : bool :=
  exists_char (Ascii.eqb c) s.

(** [s.replace(c, '')] for a one-character string [c] *)
Fixpoint remove (c : ascii) (s : string) : string :=
  match s with
  | EmptyString => EmptyString
  | String d r => if Ascii.eqb d c then remove c r else String d (remove c r)
  end.

(** [s.isdigit()]: non-empty and only digits *)
Definition isdigit (s : string) : bool :=
  match s with
  | EmptyString => false
  | _ => forall_chars is_digit_char s
  end.

(** [s.isupper()]: at least one cased character and no lowercase one *)
Definition isupper (s : string) : bool :=
  exists_char is_upper_char s && negb (exists_char is_lower_char s).

Fixpoint lstrip (s : string) : string :=
  match s with
  | EmptyString => EmptyString
  | String c r => if is_space_char c then lstrip r else s
  end.

Fixpoint rstrip (s : string) : string :=
  match s with
  | EmptyString => EmptyString
  | String c r =>
      match rstrip r with
      | EmptyString => if is_space_char c then EmptyString else String c EmptyString
      | r' => String c r'
      end
  end.

(** [s.strip()] *)
Definition strip (s : string) : string := lstrip (rstrip s).

(** [s.split(sep)] for a one-character separator; never the empty list *)
Fixpoint split (sep : ascii) (s : string) : list string :=
  match s with
  | EmptyString => [EmptyString]
  | String c r =>
      if Ascii.eqb c sep then EmptyString :: split sep r
      else match split sep r with
           | [] => [String c EmptyString]
           | w :: ws => String c w :: ws
           end
  end.

(** [sep.join(parts)] *)
Fixpoint join (sep : string) (parts : list string) : string :=
  match parts with
  | [] => EmptyString
  | [p] => p
  | p :: ps => (p ++ sep ++ join sep ps)%string
  end.

(** longest prefix of characters satisfying [p], and the rest *)
Fixpoint span (p : ascii -> bool) (s : string) : string * string :=
  match s with
  | EmptyString => (EmptyString, EmptyString)
  | String c r =>
      if p c then let '(a, b) := span p r in (String c a, b)
      else (EmptyString, s)
  end.

(** [str(n)] for a non-negative integer *)
Definition of_nat (n : nat) : string := NilEmpty.string_of_uint (Nat.to_uint n).

Definition newline : ascii := ascii_of_nat 10.

(** [x in candidates] for strings *)
Definition mem (x : string) (candidates : list string) : bool :=
  existsb (String.eqb x) candidates.

End PyStr.

(** ** The tabular container ([pandas.DataFrame])

    A cell is a string or a missing value ([NaN]/[None]).  A frame holds its
    column labels and its rows; pandas keeps frames rectangular, which is
    the predicate [rectangular] here. *)

Definition Cell : Type := option string.

Record DataFrame : Type := mkDataFrame {
  columns : list string;
  data : list (list Cell)
}.

(** [pd.DataFrame()] *)
Definition empty_frame : DataFrame := {| columns := []; data := [] |}.

Definition rectangular (df : DataFrame) : Prop :=
  Forall (fun row => length row = length (columns df)) (data df).

(** [pd.DataFrame(rows, columns=labels)] for a non-empty list of rows of
    strings: the width of the data is the longest row, shorter rows are
    filled with missing values, and a width different from the number of
    labels raises [ValueError]. *)
Definition frame_of_rows (rows : list (list string)) (labels : list string)
  : result DataFrame :=
  let width := list_max (map (@length string) rows) in
  if width =? length labels then
    Ok {| columns := labels;
          data := map (fun row => map Some row ++ repeat None (width - length row)) rows |}
  else Raise ValueError.

(** What [df[label]] selects: nothing ([KeyError]), one column (a Series),
    or, when the label is duplicated, a sub-frame. *)
Inductive Selection : Type :=
| NoColumn
| OneColumn (pos : nat)
| ManyColumns.

Fixpoint positions (label : string) (labels : list string) (from : nat) : list nat :=
  match labels with
  | [] => []
  | l :: ls =>
      if String.eqb l label then from :: positions label ls (S from)
      else positions label ls (S from)
  end.

Definition locate (df : DataFrame) (label : string) : Selection :=
  match positions label (columns df) 0 with
  | [] => NoColumn
  | [p] => OneColumn p
  | _ => ManyColumns
  end.

(** [label in df.columns] *)
Definition has_column (df : DataFrame) (label : string) : bool :=
  PyStr.mem label (columns df).

(** the values of the column at position [pos], top to bottom *)
Definition series_at (df : DataFrame) (pos : nat) : list Cell :=
  map (fun row => nth pos row None) (data df).

(** [series.notna().any()] *)
Definition notna_any (series : list Cell) : bool :=
  existsb (fun c => match c with Some _ => true | None => false end) series.

Fixpoint set_nth {A : Type} (pos : nat) (v : A) (l : list A) : list A :=
  match l, pos with
  | [], _ => []
  | _ :: t, 0 => v :: t
  | h :: t, S p => h :: set_nth p v t
  end.

Fixpoint assign_rows (pos : nat) (values : list Cell) (rows : list (list Cell))
  {struct rows} : list (list Cell) :=
  match rows, values with
  | row :: rows', v :: values' => set_nth pos v row :: assign_rows pos values' rows'
  | _, _ => rows
  end.

(** [df[label] = series] for the existing single column at [pos] *)
Definition assign_at (df : DataFrame) (pos : nat) (values : list Cell) : DataFrame :=
  {| columns := columns df; data := assign_rows pos values (data df) |}.

Definition insert_at {A : Type} (loc : nat) (v : A) (l : list A) : list A :=
  firstn loc l ++ v :: skipn loc l.

(** [df.insert(loc, label, value)] with a scalar [value]: [IndexError] when
    [loc] is beyond the last column, [ValueError] when the label exists. *)
Definition frame_insert (df : DataFrame) (loc : nat) (label : string) (value : Cell)
  : result DataFrame :=
  if length (columns df) <? loc then Raise IndexError
  else if has_column df label then Raise ValueError
  else Ok {| columns := insert_at loc label (columns df);
             data := map (insert_at loc value) (data df) |}.

(** ** Column reconciler: [split_ticker_column] *)

(** [re.match(r'^([A-Z]{1,5})\s+(.+)$', text)]: the groups of the match.
    The first group is the whole leading run of capitals (a shorter one is
    followed by a capital, not by white space), the white space is taken
    greedily and given back one character at a time, and [.+] must reach the
    end of the text, or the line feed that ends it, without crossing a line
    feed. *)
Module TickerPattern.

Definition not_newline (c : ascii) : bool := negb (Ascii.eqb c PyStr.newline).

(** [(.+)$] on the remaining text *)
Definition dot_plus_eol (s : string) : option string :=
  let '(g, tail) := PyStr.span not_newline s in
  match g with
  | EmptyString => None
  | _ => if String.eqb tail EmptyString
         || String.eqb tail (String PyStr.newline EmptyString)
         then Some g else None
  end.

(** the texts left for [(.+)$] after [\s+] took the first white-space
    character and then, in order of preference, all of [ws], ..., none *)
Fixpoint after_space (ws rest : string) : list string :=
  match ws with
  | EmptyString => [rest]
  | String c ws' => after_space ws' rest ++ [(String c ws' ++ rest)%string]
  end.

Fixpoint first_some {A B : Type} (f : A -> option B) (l : list A) : option B :=
  match l with
  | [] => None
  | a :: l' => match f a with Some b => Some b | None => first_some f l' end
  end.

Definition re_match (text : string) : option (string * string) :=
  let '(g1, r) := PyStr.span PyStr.is_upper_char text in
  if (1 <=? String.length g1) && (String.length g1 <=? 5) then
    match PyStr.span PyStr.is_space_char r with
    | (String _ ws, rest) =>
        match first_some dot_plus_eol (after_space ws rest) with
        | Some g2 => Some (g1, g2)
        | None => None
        end
    | (EmptyString, _) => None
    end
  else None.

End TickerPattern.

(** the inner function [extract_ticker_parts] *)
Definition extract_ticker_parts (text : Cell) : string * string :=
  match text with
  | None => ("", "")
  | Some t =>
      if String.eqb t "" then ("", "")
      else
        let lines := PyStr.split PyStr.newline t in
        if 2 <=? length lines then
          (PyStr.strip (hd "" lines), PyStr.strip (PyStr.join " " (tl lines)))
        else
          let text := PyStr.strip t in
          if (String.length text <=? 5) && PyStr.isupper text then (text, "")
          else match TickerPattern.re_match text with
               | Some (symbol, name) => (symbol, name)
               | None => (text, "")
               end
  end.

(** [df[label] = series]: every column carrying the label is overwritten;
    a label that is not there yet becomes a new last column. *)
Fixpoint append_rows (values : list Cell) (rows : list (list Cell)) {struct rows}
  : list (list Cell) :=
  match rows, values with
  | row :: rows', v :: values' => (row ++ [v]) :: append_rows values' rows'
  | _, _ => rows
  end.

Definition frame_setitem (df : DataFrame) (label : string) (values : list Cell) : DataFrame :=
  match positions label (columns df) 0 with
  | [] => {| columns := columns df ++ [label]; data := append_rows values (data df) |}
  | ps => fold_left (fun d pos => assign_at d pos values) ps df
  end.

(** the two Series computed from [ticker_parts =
    df['Ticker'].apply(extract_ticker_parts)]: the symbols and the names *)
Definition ticker_symbols (df : DataFrame) (tpos : nat) : list Cell :=
  map (fun x => Some (fst x)) (map extract_ticker_parts (series_at df tpos)).

Definition ticker_names (df : DataFrame) (tpos : nat) : list Cell :=
  map (fun x => Some (snd x)) (map extract_ticker_parts (series_at df tpos)).

(** The statements after the insertion of the name column: both columns are
    overwritten with the split parts.  Selecting a duplicated label yields a
    sub-frame instead of a Series; [extract_ticker_parts] applied to a whole
    column raises [ValueError] (the truth value of a Series is ambiguous),
    and with no row to apply it to, the assignment of the resulting
    sub-frame to the single name column does. *)
Definition split_ticker_assign (df : DataFrame) : result DataFrame :=
  match locate df "Ticker" with
  | OneColumn tpos =>
      let df1 := frame_setitem df "Ticker" (ticker_symbols df tpos) in
      Ok (frame_setitem df1 "Company Name" (ticker_names df tpos))
  | NoColumn => Raise KeyError
  | ManyColumns => Raise ValueError
  end.

(** [split_ticker_column].  The frame is updated in place and returned; the
    model returns the updated value.  With a duplicated name column the test
    [df['Company Name'].notna().any()] is the truth value of a Series and
    raises [ValueError]. *)
Definition split_ticker_column (df : DataFrame) : result DataFrame :=
  if negb (has_column df "Ticker") then Ok df
  else
    match locate df "Company Name" with
    | ManyColumns => Raise ValueError
    | OneColumn npos =>
        if notna_any (series_at df npos) then Ok df
        else split_ticker_assign df
    | NoColumn =>
        rbind (frame_insert df 1 "Company Name" (Some "")) split_ticker_assign
    end.

(** ** Row extractor: [extract_table_data_fast] *)

(** the value returned by the in-page routine *)
Record TableData : Type := mkTableData {
  headers : list string;
  rows : list (list string)
}.

(** header reconciliation (the [if headers and headers[0].lower() in ...]) *)
Definition adjust_headers (headers : list string) : list string :=
  match headers with
  | h0 :: rest =>
      if PyStr.mem (PyStr.lower h0) ["ticker"; "symbol"]
      then "Ticker" :: "Company Name" :: rest
      else headers
  | [] => headers
  end.

(** [f'Column_{i}'] *)
Definition column_placeholder (i : nat) : string := ("Column_" ++ PyStr.of_nat i)%string.

(** [max(len(row) for row in rows_data) if rows_data else len(headers_adj)] *)
Definition max_cols (headers_adj : list string) (rows_data : list (list string)) : nat :=
  match rows_data with
  | [] => length headers_adj
  | _ => list_max (map (@length string) rows_data)
  end.

Definition fit_headers (headers_adj : list string) (width : nat) : list string :=
  if length headers_adj <? width
  then headers_adj ++ map column_placeholder (seq (length headers_adj) (width - length headers_adj))
  else firstn width headers_adj.

Definition pad_row (width : nat) (row : list string) : list string :=
  row ++ repeat "" (width - length row).

(** column-count reconciliation: the final header list and the padded rows *)
Definition reconcile_columns (headers_adj : list string) (rows_data : list (list string))
  : list string * list (list string) :=
  let width := max_cols headers_adj rows_data in
  (fit_headers headers_adj width, map (pad_row width) rows_data).

Definition is_nil {A : Type} (l : list A) : bool :=
  match l with [] => true | _ => false end.

(** the body of the [try] block, from the value of [page.evaluate] on *)
Definition extract_body (table_data : TableData) : result DataFrame :=
  let headers_adj := adjust_headers (headers table_data) in
  let rows_data := rows table_data in
  if negb (is_nil headers_adj) && negb (is_nil rows_data) then
    let '(headers_fit, rows_padded) := reconcile_columns headers_adj rows_data in
    rbind (frame_of_rows rows_padded headers_fit) (fun df =>
      if has_column df "Ticker" then split_ticker_column df else Ok df)
  else Ok empty_frame.

(** [extract_table_data_fast], given the outcome of [page.evaluate]: any
    exception of the body is caught and gives the empty frame. *)
Definition extract_table_data_fast (evaluated : result TableData) : DataFrame :=
  match rbind evaluated extract_body with
  | Ok df => df
  | Raise _ => empty_frame
  end.

(** ** The scraper object and the browser it drives *)

(** the calls that cross the browser-automation boundary *)
Inductive Call : Type :=
| CallClickTab (tab_id : string)   (* page.click('button[id=...]') *)
| CallRowCount                     (* locator(...).count() *)
| CallIsVisible                    (* button.is_visible(timeout=2000) *)
| CallScrollIntoView               (* button.scroll_into_view_if_needed() *)
| CallClickLoadMore                (* button.click() *)
| CallEvaluate                     (* page.evaluate(...) *)
| CallBrowserClose                 (* browser.close() *)
| CallPlaywrightStop.              (* playwright.stop() *)

(** The browser as a strategy: each response is a function of the calls
    made before it, most recent first. *)
Record World : Type := mkWorld {
  click_tab_button : list Call -> string -> result unit;
  count_rows : list Call -> result nat;
  load_more_visible : list Call -> result bool;
  load_more_scroll : list Call -> result unit;
  load_more_click : list Call -> result unit;
  evaluate_table : list Call -> result TableData;
  browser_close : list Call -> result unit;
  playwright_stop : list Call -> result unit
}.

(** the messages printed by [close] *)
Inductive LogLine : Type :=
| LogBrowserClosed
| LogErrorClosingBrowser (e : exn)
| LogPlaywrightStopped
| LogErrorStoppingPlaywright (e : exn).

Inductive Handle : Type := handle.

(** the fields of [TradingViewScraperOptimized] that the modelled methods
    read or write, with the history of calls and the teardown log *)
Record Scraper : Type := mkScraper {
  browser : option Handle;
  playwright : option Handle;
  total_rows_loaded : nat;
  history : list Call;
  log : list LogLine
}.

Definition record_call (c : Call) (s : Scraper) : Scraper :=
  {| browser := browser s; playwright := playwright s;
     total_rows_loaded := total_rows_loaded s;
     history := c :: history s; log := log s |}.

Definition record_log (l : LogLine) (s : Scraper) : Scraper :=
  {| browser := browser s; playwright := playwright s;
     total_rows_loaded := total_rows_loaded s;
     history := history s; log := l :: log s |}.

Definition set_total_rows_loaded (n : nat) (s : Scraper) : Scraper :=
  {| browser := browser s; playwright := playwright s;
     total_rows_loaded := n;
     history := history s; log := log s |}.

(** Methods are computations over the scraper that return or raise. *)
Definition M (A : Type) : Type := Scraper -> result A * Scraper.

Definition ret {A : Type} (a : A) : M A := fun s => (Ok a, s).

Definition bind {A B : Type} (m : M A) (k : A -> M B) : M B :=
  fun s => match m s with
           | (Ok a, s') => k a s'
           | (Raise e, s') => (Raise e, s')
           end.

Notation "x <- m ;; k" := (bind m (fun x => k))
  (at level 61, m at next level, right associativity).
Notation "m ;;; k" := (bind m (fun _ => k))
  (at level 61, right associativity).

(** [try: body except Exception as e: handler(e)] *)
Definition try_except {A : Type} (body : M A) (handler : exn -> M A) : M A :=
  fun s => match body s with
           | (Ok a, s') => (Ok a, s')
           | (Raise e, s') => handler e s'
           end.

(** one awaited call into the browser *)
Definition call {A : Type} (c : Call) (respond : list Call -> result A) : M A :=
  fun s => (respond (history s), record_call c s).

Definition print (l : LogLine) : M unit := fun s => (Ok tt, record_log l s).

Definition get {A : Type} (field : Scraper -> A) : M A := fun s => (Ok (field s), s).

Definition is_some {A : Type} (o : option A) : bool :=
  match o with Some _ => true | None => false end.

(** *** Session controller: [close] *)

Definition close (w : World) : M unit :=
  try_except
    (b <- get browser ;;
     if is_some b
     then call CallBrowserClose (browser_close w) ;;; print LogBrowserClosed
     else ret tt)
    (fun e => print (LogErrorClosingBrowser e)) ;;;
  try_except
    (p <- get playwright ;;
     if is_some p
     then call CallPlaywrightStop (playwright_stop w) ;;; print LogPlaywrightStopped
     else ret tt)
    (fun e => print (LogErrorStoppingPlaywright e)).

(** *** Tab activation and row counting *)

Definition click_tab (w : World) (tab_id : string) : M bool :=
  try_except
    (call (CallClickTab tab_id) (fun h => click_tab_button w h tab_id) ;;; ret true)
    (fun _ => ret false).

Definition get_current_row_count (w : World) : M nat :=
  try_except (call CallRowCount (count_rows w)) (fun _ => ret 0).

(** *** Pagination driver: [load_all_rows] *)

Definition max_clicks : nat := 150.

(** [float(n)] for an integer: the nearest binary64 *)
Definition float_of_int (z : Z) : float :=
  SF2Prim (binary_normalize prec emax z 0%Z false).

(** the literal [0.95]: the binary64 nearest to it *)
Definition ninety_five_percent : float := 0x1.e666666666666p-1%float.

(** [current_count >= self.total_rows_loaded * 0.95]: the product is a
    binary64 product; the comparison of the integer with it is made on the
    binary64 value of the integer, which is the integer itself for every
    count below 2^53. *)
Definition rows_already_loaded (current_count total : nat) : bool :=
  PrimFloat.leb (PrimFloat.mul (float_of_int (Z.of_nat total)) ninety_five_percent)
                (float_of_int (Z.of_nat current_count)).

(** The body of the [try] in the loop, up to [clicks += 1]: [false] is the
    [break] taken when the control is not visible, [true] a completed click. *)
Definition load_more_attempt (w : World) : M bool :=
  visible <- call CallIsVisible (load_more_visible w) ;;
  if negb visible then ret false
  else call CallScrollIntoView (load_more_scroll w) ;;;
       call CallClickLoadMore (load_more_click w) ;;;
       ret true.

Inductive LoopStep : Type :=
| Continue (clicks consecutive_failures : nat)
| Break (clicks : nat).

(** one iteration of the [while] body with its two [except] clauses *)
Definition iteration (w : World) (clicks consecutive_failures : nat) (s : Scraper)
  : LoopStep * Scraper :=
  match load_more_attempt w s with
  | (Ok true, s') => (Continue (clicks + 1) 0, s')
  | (Ok false, s') => (Break clicks, s')
  | (Raise PlaywrightTimeout, s') =>
      if 2 <=? consecutive_failures + 1 then (Break clicks, s')
      else (Continue clicks (consecutive_failures + 1), s')
  | (Raise _, s') => (Break clicks, s')
  end.

(** what is left of the click budget and of the tolerated time-outs; it
    decreases with every iteration that continues the loop *)
Definition loop_measure (clicks consecutive_failures : nat) : nat :=
  3 * (max_clicks - clicks) + (2 - consecutive_failures).
Arguments loop_measure : simpl never.

Definition inspect {A : Type} (a : A) : {b : A | a = b} := exist _ a eq_refl.

(** [while clicks < max_clicks: ...]; the result is the final click counter *)
Equations? load_more_loop (w : World) (clicks consecutive_failures : nat) (s : Scraper)
  : nat * Scraper
  by wf (loop_measure clicks consecutive_failures) lt :=
load_more_loop w clicks consecutive_failures s with inspect (clicks <? max_clicks) := {
  | exist _ false _ => (clicks, s)
  | exist _ true Hlt with inspect (iteration w clicks consecutive_failures s) := {
      | exist _ (Break c, s') _ => (c, s')
      | exist _ (Continue c f, s') Hstep => load_more_loop w c f s' } }.
Proof.
  apply Nat.ltb_lt in Hlt.
  unfold iteration in Hstep. unfold loop_measure, max_clicks in *.
  destruct (load_more_attempt w s) as [[[|]|[]] s1];
    try discriminate; try (injection Hstep as <- <- <-; lia).
  destruct (2 <=? consecutive_failures + 1) eqn:E; try discriminate.
  injection Hstep as <- <- <-. apply Nat.leb_gt in E. lia.
Qed.

(** the statements from [clicks = 0] to [return clicks] *)
Definition paginate (w : World) : M nat :=
  clicks <- (fun s => let '(c, s') := load_more_loop w 0 0 s in (Ok c, s')) ;;
  final_count <- get_current_row_count w ;;
  total <- get total_rows_loaded ;;
  (if total <? final_count
   then (fun s => (Ok tt, set_total_rows_loaded final_count s))
   else ret tt) ;;;
  ret clicks.

Definition load_all_rows (w : World) (is_first_tab : bool) : M nat :=
  skip <- (if is_first_tab then ret false
           else current_count <- get_current_row_count w ;;
                total <- get total_rows_loaded ;;
                ret (rows_already_loaded current_count total)) ;;
  if (skip : bool) then ret 0 else paginate w.

(** *** Tab iterator: [scrape_tab] and [scrape_all_tabs] *)

Definition extract_table (w : World) : M DataFrame :=
  fun s => (Ok (extract_table_data_fast (evaluate_table w (history s))),
            record_call CallEvaluate s).

Definition scrape_tab (w : World) (tab_id tab_name : string) (is_first_tab : bool)
  : M DataFrame :=
  activated <- click_tab w tab_id ;;
  if negb activated then ret empty_frame
  else load_all_rows w is_first_tab ;;;
       df <- extract_table w ;;
       ret df.

Definition tabs : list (string * string) :=
  [ ("overview", "Overview");
    ("performance", "Performance");
    ("valuation", "Valuation");
    ("dividends", "Dividends");
    ("profitability", "Profitability");
    ("incomeStatement", "Income Statement");
    ("balanceSheet", "Balance Sheet");
    ("cashFlow", "Cash Flow");
    ("technicals", "Technicals") ].

(** a Python [dict] with string keys, in insertion order *)
Definition Dict (V : Type) : Type := list (string * V).

(** [d[key] = v] *)
Fixpoint dict_set {V : Type} (d : Dict V) (key : string) (v : V) : Dict V :=
  match d with
  | [] => [(key, v)]
  | (k, v0) :: d' =>
      if String.eqb k key then (k, v) :: d' else (k, v0) :: dict_set d' key v
  end.

Fixpoint dict_get {V : Type} (d : Dict V) (key : string) : option V :=
  match d with
  | [] => None
  | (k, v) :: d' => if String.eqb k key then Some v else dict_get d' key
  end.

(** the [for idx, (tab_id, tab_name) in enumerate(tabs)] loop, from index
    [idx] on *)
Fixpoint scrape_tabs (w : World) (remaining : list (string * string)) (idx : nat)
    (all_data : Dict DataFrame) : M (Dict DataFrame) :=
  match remaining with
  | [] => ret all_data
  | (tab_id, tab_name) :: rest =>
      df <- scrape_tab w tab_id tab_name (idx =? 0) ;;
      scrape_tabs w rest (S idx) (dict_set all_data tab_name df)
  end.

Definition scrape_all_tabs (w : World) : M (Dict DataFrame) :=
  scrape_tabs w tabs 0 [].

(** ** The builtin [float(text)] on ASCII text

    Leading and trailing white space is dropped; an optional sign is
    followed by [inf], [infinity] or [nan] in any case, or by a decimal
    number whose digits may be separated by single underscores, with an
    optional exponent.  The value is the decimal number rounded once, to the
    nearest binary64 (ties to even); anything else raises [ValueError]. *)
Module PyFloat.

Local Open Scope Z_scope.

Definition digit_value (c : ascii) : Z := Z.of_nat (PyStr.code c - 48).

Definition underscore : ascii := ascii_of_nat 95.

(** the rest of a digit part whose first digit has been read: the number
    read so far, how many digits it has, and the text that follows *)
Fixpoint digits_tail (s : string) (acc : Z) (count : nat) : Z * nat * string :=
  match s with
  | String c r =>
      if PyStr.is_digit_char c
      then digits_tail r (10 * acc + digit_value c) (S count)
      else if Ascii.eqb c underscore then
        match r with
        | String d r' =>
            if PyStr.is_digit_char d
            then digits_tail r' (10 * acc + digit_value d) (S count)
            else (acc, count, s)
        | EmptyString => (acc, count, s)
        end
      else (acc, count, s)
  | EmptyString => (acc, count, s)
  end.

(** [digitpart], continuing the number [acc] *)
Definition digitpart (s : string) (acc : Z) : option (Z * nat * string) :=
  match s with
  | String c r =>
      if PyStr.is_digit_char c
      then Some (digits_tail r (10 * acc + digit_value c) 1%nat)
      else None
  | EmptyString => None
  end.

Definition is_char (n : nat) (c : ascii) : bool := (PyStr.code c =? n)%nat.

(** an optional sign: whether it is a minus, and the text after it *)
Definition sign (s : string) : bool * string :=
  match s with
  | String c r =>
      if is_char 45 c then (true, r)
      else if is_char 43 c then (false, r)
      else (false, s)
  | EmptyString => (false, s)
  end.

(** [number]: the digits as one integer, the number of digits after the
    point, and the text that follows *)
Definition number (s : string) : option (Z * nat * string) :=
  match s with
  | String c r =>
      if is_char 46 c then
        (* "." digitpart *)
        match digitpart r 0 with
        | Some (m, k, rest) => Some (m, k, rest)
        | None => None
        end
      else
        match digitpart s 0 with
        | Some (m, _, String c' r') =>
            if is_char 46 c' then
              (* digitpart "." [digitpart] *)
              match digitpart r' m with
              | Some (m', k, rest) => Some (m', k, rest)
              | None => Some (m, 0%nat, r')
              end
            else Some (m, 0%nat, String c' r')
        | Some (m, _, EmptyString) => Some (m, 0%nat, EmptyString)
        | None => None
        end
  | EmptyString => None
  end.

(** [exponent], if any: its value and the text that follows *)
Definition exponent (s : string) : option (Z * string) :=
  match s with
  | String c r =>
      if is_char 101 c || is_char 69 c then
        let '(neg, r1) := sign r in
        match digitpart r1 0 with
        | Some (e, _, rest) => Some (if neg then - e else e, rest)
        | None => None
        end
      else Some (0, s)
  | EmptyString => Some (0, s)
  end.

(** [m * 10^e10], with the sign, rounded to the nearest binary64.  For a
    negative exponent the quotient is computed with at least 55
    significant bits and a sticky bit, so that it is rounded once. *)
Definition of_decimal (neg : bool) (m e10 : Z) : float :=
  let signed (z : Z) := if neg then - z else z in
  if m =? 0 then (if neg then neg_zero else zero)
  else if 0 <=? e10 then
    SF2Prim (binary_normalize prec emax (signed (m * 10 ^ e10)) 0 false)
  else
    let q := 10 ^ (- e10) in
    let shift := Z.max 0 (Zdigits2 q - Zdigits2 m + 55) in
    let '(quo, rem) := Z.div_eucl (m * 2 ^ shift) q in
    let sticky := if rem =? 0 then 0 else 1 in
    SF2Prim (binary_normalize prec emax (signed (2 * quo + sticky)) (- (shift + 1)) false).

Definition parse (text : string) : result float :=
  let '(neg, body) := sign (PyStr.strip text) in
  let word := PyStr.lower body in
  if String.eqb word "inf" || String.eqb word "infinity"
  then Ok (if neg then neg_infinity else infinity)
  else if String.eqb word "nan" then Ok nan
  else
    match number body with
    | Some (m, k, rest) =>
        match exponent rest with
        | Some (e, EmptyString) => Ok (of_decimal neg m (e - Z.of_nat k))
        | _ => Raise ValueError
        end
    | None => Raise ValueError
    end.

End PyFloat.

(** ** Export formatter: the data-cell pass of [format_excel_professionally] *)

Inductive CellValue : Type :=
| VNone
| VText (s : string)
| VNumber (x : float).

Inductive Horizontal : Type := HLeft | HRight.

(** a worksheet cell: its value and the style attributes the pass sets *)
Record XlCell : Type := mkXlCell {
  cell_value : CellValue;
  number_format : string;
  alignment : option Horizontal;
  bordered : bool
}.

(** a data cell as the writer leaves it *)
Definition loaded_cell (text : option string) : XlCell :=
  {| cell_value := match text with Some s => VText s | None => VNone end;
     number_format := "General";
     alignment := None;
     bordered := false |}.

Definition dquote : string := String (ascii_of_nat 34) EmptyString.

(** the display formats: billions, millions, thousands, plain currency,
    plain number and percentage *)
Definition fmt_billions : string := ("$#,##0.00,," ++ dquote ++ "B" ++ dquote)%string.
Definition fmt_millions : string := ("$#,##0.00," ++ dquote ++ "M" ++ dquote)%string.
Definition fmt_thousands : string := ("$#,##0.00," ++ dquote ++ "K" ++ dquote)%string.
Definition fmt_currency : string := "$#,##0.00".
Definition fmt_number : string := "#,##0.00".
Definition fmt_percent : string := "0.00%".

Definition ch (n : nat) : ascii := ascii_of_nat n.
Definition percent_sign : ascii := ch 37.
Definition dollar_sign : ascii := ch 36.
Definition comma : ascii := ch 44.
Definition full_stop : ascii := ch 46.
Definition minus_sign : ascii := ch 45.
Definition plus_sign : ascii := ch 43.

(** the branches of the [if]/[elif] chain of the data-cell pass *)
Inductive Branch : Type :=
| BranchBlank        (* value None or '' : only the border is set *)
| BranchLeading      (* col_idx <= 2 *)
| BranchPercentage
| BranchCurrency
| BranchPlainNumber
| BranchText.

(** [cell_value.replace(',', '').replace('.', '').replace('-', '')
    .replace('+', '').isdigit()] *)
Definition all_digits (cell_value : string) : bool :=
  PyStr.isdigit
    (PyStr.remove plus_sign
       (PyStr.remove minus_sign
          (PyStr.remove full_stop
             (PyStr.remove comma cell_value)))).

(** the guards, in the order of the source *)
Definition select_branch (col_idx : nat) (cell_value : string) : Branch :=
  if col_idx <=? 2 then BranchLeading
  else if PyStr.contains percent_sign cell_value then BranchPercentage
  else if PyStr.contains dollar_sign cell_value || all_digits cell_value
       then BranchCurrency
  else if all_digits cell_value then BranchPlainNumber
  else BranchText.

(** the number format chosen by magnitude *)
Definition currency_format (num : float) : string :=
  if PrimFloat.leb 1000000000%float (PrimFloat.abs num) then fmt_billions
  else if PrimFloat.leb 1000000%float (PrimFloat.abs num) then fmt_millions
  else if PrimFloat.leb 1000%float (PrimFloat.abs num) then fmt_thousands
  else fmt_currency.

Section Formatting.

(** the builtins [float(text)] and [str(x)] for a float [x] *)
Variable float_of_str : string -> result float.
Variable str_of_float : float -> string.

Definition with_alignment (h : Horizontal) (c : XlCell) : XlCell :=
  {| cell_value := cell_value c; number_format := number_format c;
     alignment := Some h; bordered := bordered c |}.

Definition with_border (c : XlCell) : XlCell :=
  {| cell_value := cell_value c; number_format := number_format c;
     alignment := alignment c; bordered := true |}.

(** [cell.value = num], [cell.number_format = fmt], right alignment *)
Definition as_number (num : float) (fmt : string) (c : XlCell) : XlCell :=
  {| cell_value := VNumber num; number_format := fmt;
     alignment := Some HRight; bordered := bordered c |}.

Definition format_percentage (cell_value : string) (c : XlCell) : XlCell :=
  match float_of_str (PyStr.remove comma (PyStr.remove percent_sign cell_value)) with
  | Ok num => as_number (PrimFloat.div num 100%float) fmt_percent c
  | Raise _ => with_alignment HRight c
  end.

Definition format_plain_number (cell_value : string) (c : XlCell) : XlCell :=
  match float_of_str (PyStr.remove plus_sign (PyStr.remove comma cell_value)) with
  | Ok num => as_number num fmt_number c
  | Raise _ => with_alignment HLeft c
  end.

Definition format_currency (cell_value : string) (c : XlCell) : XlCell :=
  match float_of_str
          (PyStr.remove plus_sign
             (PyStr.remove comma (PyStr.remove dollar_sign cell_value))) with
  | Ok num => as_number num (currency_format num) c
  | Raise _ => format_plain_number cell_value c
  end.

(** [str(cell.value)] *)
Definition str_of_value (v : CellValue) : string :=
  match v with
  | VNone => "None"
  | VText s => s
  | VNumber x => str_of_float x
  end.

(** [cell.value is not None and cell.value != ''] *)
Definition has_content (v : CellValue) : bool :=
  match v with
  | VNone => false
  | VText s => negb (String.eqb s "")
  | VNumber _ => true
  end.

(** the branch taken for a cell in column [col_idx] (counted from 1) *)
Definition branch_of (col_idx : nat) (c : XlCell) : Branch :=
  if has_content (cell_value c)
  then select_branch col_idx (PyStr.strip (str_of_value (cell_value c)))
  else BranchBlank.

(** the body of the inner loop for one data cell *)
Definition format_data_cell (col_idx : nat) (c : XlCell) : XlCell :=
  let c := with_border c in
  let text := PyStr.strip (str_of_value (cell_value c)) in
  match branch_of col_idx c with
  | BranchBlank => c
  | BranchLeading => with_alignment HLeft c
  | BranchPercentage => format_percentage text c
  | BranchCurrency => format_currency text c
  | BranchPlainNumber => format_plain_number text c
  | BranchText => with_alignment HLeft c
  end.

(** [for col_idx, cell in enumerate(row, start=1)] *)
Fixpoint format_cells_from (col_idx : nat) (row : list XlCell) : list XlCell :=
  match row with
  | [] => []
  | c :: row' => format_data_cell col_idx c :: format_cells_from (S col_idx) row'
  end.

(** the data rows of a sheet (the rows after the header row) *)
Definition format_data_rows (data_rows : list (list XlCell)) : list (list XlCell) :=
  map (format_cells_from 1) data_rows.

End Formatting.

(** ** The in-page routine of [extract_table_data_fast]

    The JavaScript passed to [page.evaluate] reads the rendered table.  The
    document is modelled by what the routine reads from it: the [data-field]
    attribute of each header cell and, for each body row, its cells. *)

Module Js.

(** white space for [String.prototype.trim] (ASCII): TAB, LF, VT, FF, CR
    and space *)
Definition is_space_char (c : ascii) : bool :=
  ((9 <=? PyStr.code c) && (PyStr.code c <=? 13)) || (PyStr.code c =? 32).

Fixpoint trim_start (s : string) : string :=
  match s with
  | EmptyString => EmptyString
  | String c r => if is_space_char c then trim_start r else s
  end.

Fixpoint trim_end (s : string) : string :=
  match s with
  | EmptyString => EmptyString
  | String c r =>
      match trim_end r with
      | EmptyString => if is_space_char c then EmptyString else String c EmptyString
      | r' => String c r'
      end
  end.

(** [s.trim()] *)
Definition trim (s : string) : string := trim_start (trim_end s).

End Js.

(** a body cell: the [innerText] of its first descendant whose class
    contains [tickerNameBox], of the one whose class contains
    [tickerDescription], and of the cell itself *)
Record DomCell : Type := mkDomCell {
  symbol_text : option string;
  description_text : option string;
  inner_text : string
}.

Record DomTable : Type := mkDomTable {
  header_fields : list string;       (* th[data-field], in document order *)
  body_rows : list (list DomCell)    (* tr.listRow, each with its td cells *)
}.

(** the two entries pushed for the cell at index 0 *)
Definition first_cell_data (cell : DomCell) : list string :=
  match symbol_text cell, description_text cell with
  | Some symbol, Some description => [Js.trim symbol; Js.trim description]
  | _, _ =>
      let full_text := Js.trim (inner_text cell) in
      let lines := PyStr.split PyStr.newline full_text in
      if 2 <=? length lines
      then [Js.trim (hd "" lines); Js.trim (PyStr.join " " (tl lines))]
      else [full_text; ""]
  end.

(** [cells.forEach((cell, index) => ...)], from index [index] on *)
Fixpoint cells_data (index : nat) (cells : list DomCell) : list string :=
  match cells with
  | [] => []
  | cell :: rest =>
      (if index =? 0 then first_cell_data cell else [Js.trim (inner_text cell)])
      ++ cells_data (S index) rest
  end.

Definition row_data (cells : list DomCell) : list string := cells_data 0 cells.

(** the object [{ headers, rows }] returned to Python: header cells with an
    empty field and rows without data are left out *)
Definition page_table (dom : DomTable) : TableData :=
  {| headers := filter (fun field => negb (String.eqb field "")) (header_fields dom);
     rows := filter (fun r => negb (is_nil r)) (map row_data (body_rows dom)) |}.

(** ** Export: the sheets written by [save_to_excel] *)

(** [df.empty]: an axis of length 0 *)
Definition frame_empty (df : DataFrame) : bool :=
  is_nil (columns df) || is_nil (data df).

(** [sheet_name[:31]] *)
Definition safe_name (sheet_name : string) : string := substring 0 31 sheet_name.

(** the calls [df.to_excel(writer, sheet_name=safe_name, index=False)], in
    the order of [data.items()] *)
Definition sheets_to_write (data : Dict DataFrame) : list (string * DataFrame) :=
  map (fun item => (safe_name (fst item), snd item))
      (filter (fun item => negb (frame_empty (snd item))) data).

(** ** Export: column widths in [format_excel_professionally] *)

(** [if cell.value:] *)
Definition truthy (v : CellValue) : bool :=
  match v with
  | VNone => false
  | VText s => negb (String.eqb s "")
  | VNumber x => negb (PrimFloat.eqb x 0%float)
  end.

(** the loop over the cells of one column, header cell included *)
Definition max_length (str_of_float : float -> string) (column : list CellValue) : nat :=
  fold_left
    (fun longest v =>
       if truthy v
       then Nat.max longest (String.length (str_of_value str_of_float v))
       else longest)
    column 0.

(** [adjusted_width = min(max_length + 2, 50)] *)
Definition adjusted_width (str_of_float : float -> string) (column : list CellValue) : nat :=
  Nat.min (max_length str_of_float column + 2) 50.

(** ** The whole run: [start], [load_page], [save_to_excel], [run] *)

(** The outcomes of the steps that [run] performs once, outside the
    scraping of the tabs: starting the engine, launching the browser,
    opening a context and a page, navigating, and writing and formatting
    the workbook. *)
Record Launch : Type := mkLaunch {
  start_playwright : result unit;   (* async_playwright().start() *)
  launch_browser : result unit;     (* playwright.chromium.launch(...) *)
  new_context : result unit;        (* browser.new_context(...) *)
  new_page : result unit;           (* context.new_page() and its timeout *)
  goto_page : result unit;          (* page.goto(url, ...) *)
  write_workbook : list (string * DataFrame) -> result unit
}.

Definition set_playwright (p : option Handle) (s : Scraper) : Scraper :=
  {| browser := browser s; playwright := p;
     total_rows_loaded := total_rows_loaded s;
     history := history s; log := log s |}.

Definition set_browser (b : option Handle) (s : Scraper) : Scraper :=
  {| browser := b; playwright := playwright s;
     total_rows_loaded := total_rows_loaded s;
     history := history s; log := log s |}.

(** a step whose outcome is given *)
Definition outcome {A : Type} (r : result A) : M A := fun s => (r, s).

(** an assignment to a field of [self] *)
Definition assign (update : Scraper -> Scraper) : M unit :=
  fun s => (Ok tt, update s).

Definition start (l : Launch) : M unit :=
  outcome (start_playwright l) ;;;
  assign (set_playwright (Some handle)) ;;;
  outcome (launch_browser l) ;;;
  assign (set_browser (Some handle)) ;;;
  outcome (new_context l) ;;;
  outcome (new_page l).

Definition load_page (l : Launch) : M unit := outcome (goto_page l).

(** [save_to_excel]: the sheets are written and then formatted; either
    step may raise *)
Definition save_to_excel (l : Launch) (data : Dict DataFrame) : M unit :=
  outcome (write_workbook l (sheets_to_write data)).

(** [try: body finally: finalizer] *)
Definition try_finally {A : Type} (body : M A) (finalizer : M unit) : M A :=
  fun s => match body s with
           | (r, s1) =>
               match finalizer s1 with
               | (Ok _, s2) => (r, s2)
               | (Raise e, s2) => (Raise e, s2)
               end
           end.

(** [run]: the error of the [try] body is printed, and [close] runs in the
    [finally] clause *)
Definition run (w : World) (l : Launch) : M unit :=
  try_finally
    (try_except
       (start l ;;;
        load_page l ;;;
        data <- scrape_all_tabs w ;;
        save_to_excel l data)
       (fun _ => ret tt))
    (close w).

(** ** What scraping does to the session *)

(** the calls made while scraping, as opposed to the teardown calls *)
Definition scraping_call (c : Call) : bool :=
  match c with
  | CallBrowserClose | CallPlaywrightStop => false
  | _ => true
  end.

(** [s'] is reached from [s] by at most [bound] scraping calls: the handles
    and the log are the same, and the cumulative maximum is not lower *)
Definition scraping_step (bound : nat) (s s' : Scraper) : Prop :=
  browser s' = browser s
  /\ playwright s' = playwright s
  /\ log s' = log s
  /\ total_rows_loaded s <= total_rows_loaded s'
  /\ exists calls,
       history s' = calls ++ history s
       /\ length calls <= bound
       /\ forallb scraping_call calls = true.

(** the teardown calls of [close] for a scraper in state [s], most recent
    first *)
Definition teardown_calls (s : Scraper) : list Call :=
  (if is_some (playwright s) then [CallPlaywrightStop] else [])
  ++ (if is_some (browser s) then [CallBrowserClose] else []).

Definition is_ok {A : Type} (r : result A) : bool :=
  match r with Ok _ => true | Raise _ => false end.

(** ** Observations on call histories *)

(** the number of visibility probes, one per iteration of the pagination loop *)
Fixpoint probes (h : list Call) : nat :=
  match h with
  | [] => 0
  | CallIsVisible :: before => S (probes before)
  | _ :: before => probes before
  end.

(** the number of [button.click()] calls that returned normally; each is
    answered on the history that precedes it *)
Fixpoint completed_clicks (w : World) (h : list Call) : nat :=
  match h with
  | [] => 0
  | CallClickLoadMore :: before =>
      match load_more_click w before with
      | Ok _ => S (completed_clicks w before)
      | Raise _ => completed_clicks w before
      end
  | _ :: before => completed_clicks w before
  end.

(** the tabs whose button was clicked, most recent first *)
Fixpoint tab_clicks (h : list Call) : list string :=
  match h with
  | [] => []
  | CallClickTab tab_id :: before => tab_id :: tab_clicks before
  | _ :: before => tab_clicks before
  end.

(** what [get_current_row_count] returns when called after the calls [h] *)
Definition row_count_at (w : World) (h : list Call) : nat :=
  match count_rows w h with
  | Ok n => n
  | Raise _ => 0
  end.

(** The contract of the pagination driver as the specification words it for
    every return: the last call made is a sample of the row count, and the
    cumulative maximum is the larger of its old value and that sample. *)
Definition resampled_and_updated (w : World) (s s' : Scraper) : Prop :=
  exists before,
    history s' = CallRowCount :: before
    /\ total_rows_loaded s'
       = Nat.max (total_rows_loaded s) (row_count_at w before).

(** the fields that pagination never touches *)
Definition same_session (s s' : Scraper) : Prop :=
  browser s' = browser s /\ playwright s' = playwright s
  /\ total_rows_loaded s' = total_rows_loaded s /\ log s' = log s
  /\ tab_clicks (history s') = tab_clicks (history s).

(** ** Sample worlds and sessions *)

(** a page that always shows [n] rows, whose tabs and controls always
    respond, and whose "Load More" control is never visible *)
Definition steady_world (n : nat) : World :=
  {| click_tab_button := fun _ _ => Ok tt;
     count_rows := fun _ => Ok n;
     load_more_visible := fun _ => Ok false;
     load_more_scroll := fun _ => Ok tt;
     load_more_click := fun _ => Ok tt;
     evaluate_table := fun _ => Ok {| headers := []; rows := [] |};
     browser_close := fun _ => Ok tt;
     playwright_stop := fun _ => Ok tt |}.

(** a page on which nothing works: every call raises *)
Definition broken_world : World :=
  {| click_tab_button := fun _ _ => Raise PlaywrightTimeout;
     count_rows := fun _ => Raise PlaywrightError;
     load_more_visible := fun _ => Raise PlaywrightTimeout;
     load_more_scroll := fun _ => Raise PlaywrightTimeout;
     load_more_click := fun _ => Raise PlaywrightTimeout;
     evaluate_table := fun _ => Raise PlaywrightError;
     browser_close := fun _ => Raise PlaywrightError;
     playwright_stop := fun _ => Raise PlaywrightError |}.

(** a page whose "Load More" control is always there and adds one row per
    click to the 100 rows shown at first *)
Definition eager_world : World :=
  {| click_tab_button := fun _ _ => Ok tt;
     count_rows := fun h => Ok (100 + completed_clicks (steady_world 0) h);
     load_more_visible := fun _ => Ok true;
     load_more_scroll := fun _ => Ok tt;
     load_more_click := fun _ => Ok tt;
     evaluate_table := fun _ => Ok {| headers := []; rows := [] |};
     browser_close := fun _ => Ok tt;
     playwright_stop := fun _ => Ok tt |}.

(** the same page, except that every other visibility probe times out *)
Definition flaky_world : World :=
  {| click_tab_button := fun _ _ => Ok tt;
     count_rows := fun h => Ok (100 + completed_clicks (steady_world 0) h);
     load_more_visible := fun h => match h with
                                   | CallIsVisible :: _ => Ok true
                                   | _ => Raise PlaywrightTimeout
                                   end;
     load_more_scroll := fun _ => Ok tt;
     load_more_click := fun _ => Ok tt;
     evaluate_table := fun _ => Ok {| headers := []; rows := [] |};
     browser_close := fun _ => Ok tt;
     playwright_stop := fun _ => Ok tt |}.

(** a started session in which [n] rows have been seen so far *)
Definition session_with (n : nat) : Scraper :=
  {| browser := Some handle; playwright := Some handle;
     total_rows_loaded := n; history := []; log := [] |}.

(** the scraper as [__init__] leaves it *)
Definition fresh_scraper : Scraper :=
  {| browser := None; playwright := None;
     total_rows_loaded := 0; history := []; log := [] |}.

(** * Properties *)

(** ** Lists, labels and frames *)

Lemma fit_headers_length (hs : list string) (width : nat) :
  length (fit_headers hs width) = width.
Proof.
  unfold fit_headers.
  destruct (length hs <? width) eqn:E.
  - apply Nat.ltb_lt in E.
    rewrite length_app, length_map, length_seq. lia.
  - apply Nat.ltb_ge in E. rewrite length_firstn. lia.
Qed.

Lemma pad_row_length (width : nat) (row : list string) :
  length row <= width -> length (pad_row width row) = width.
Proof.
  intros H. unfold pad_row. rewrite length_app, repeat_length. lia.
Qed.

Lemma list_max_bound (l : list nat) (x : nat) : In x l -> x <= list_max l.
Proof.
  intros H.
  assert (F : Forall (fun k => k <= list_max l) l)
    by (apply list_max_le; reflexivity).
  rewrite Forall_forall in F. auto.
Qed.

Lemma list_max_const (l : list nat) (n : nat) :
  l <> [] -> Forall (fun k => k = n) l -> list_max l = n.
Proof.
  intros Hne F. destruct l as [|x l]; [congruence|].
  apply Nat.le_antisymm.
  - apply list_max_le. eapply Forall_impl; [|exact F]. simpl. lia.
  - inversion F; subst. apply list_max_bound. left. reflexivity.
Qed.

Lemma padded_rows_width (rs : list (list string)) :
  Forall (fun row => length row = list_max (map (@length string) rs))
         (map (pad_row (list_max (map (@length string) rs))) rs).
Proof.
  apply Forall_forall. intros row Hin.
  apply in_map_iff in Hin as [r [<- Hr]].
  apply pad_row_length, list_max_bound, in_map, Hr.
Qed.

Lemma set_nth_length {A : Type} (pos : nat) (v : A) (l : list A) :
  length (set_nth pos v l) = length l.
Proof.
  revert pos. induction l as [|h t IH]; intros [|p]; simpl; auto.
Qed.

Lemma nth_set_nth {A : Type} (pos : nat) (v d : A) (l : list A) :
  pos < length l -> nth pos (set_nth pos v l) d = v.
Proof.
  revert pos. induction l as [|h t IH]; intros [|p] H; simpl in *; try lia; auto.
  apply IH. lia.
Qed.

Lemma assign_rows_widths (pos n : nat) (values : list Cell) (rows : list (list Cell)) :
  Forall (fun row => length row = n) rows ->
  Forall (fun row => length row = n) (assign_rows pos values rows).
Proof.
  intros F. revert values.
  induction F as [|row rows Hrow F IH]; intros [|v values]; simpl; auto.
  constructor; [rewrite set_nth_length; exact Hrow | apply IH].
Qed.

Lemma assign_rows_length (pos : nat) (values : list Cell) (rows : list (list Cell)) :
  length (assign_rows pos values rows) = length rows.
Proof.
  revert values. induction rows as [|row rows IH]; intros [|v values]; simpl; auto.
Qed.

Lemma assign_rows_read (pos : nat) (values : list Cell) (rows : list (list Cell)) :
  Forall (fun row => pos < length row) rows ->
  length values = length rows ->
  map (fun row => nth pos row None) (assign_rows pos values rows) = values.
Proof.
  intros F. revert values.
  induction F as [|row rows Hrow F IH]; intros [|v values] Hlen;
    simpl in *; try discriminate; auto.
  rewrite nth_set_nth by exact Hrow.
  rewrite IH by lia. reflexivity.
Qed.

Lemma append_rows_widths (n : nat) (values : list Cell) (rows : list (list Cell)) :
  length values = length rows ->
  Forall (fun row => length row = n) rows ->
  Forall (fun row => length row = S n) (append_rows values rows).
Proof.
  intros Hlen F. revert values Hlen.
  induction F as [|row rows Hrow F IH]; intros [|v values] Hlen;
    simpl in *; try discriminate; auto.
  constructor; [rewrite length_app; simpl; lia | apply IH; lia].
Qed.

Lemma assign_at_rectangular (df : DataFrame) (pos : nat) (values : list Cell) :
  rectangular df -> rectangular (assign_at df pos values).
Proof. intros R. apply assign_rows_widths, R. Qed.

Lemma positions_bounds (label : string) (labels : list string) (from p : nat) :
  In p (positions label labels from) -> from <= p < from + length labels.
Proof.
  revert from. induction labels as [|l ls IH]; intros from H; simpl in *; [tauto|].
  destruct (String.eqb l label).
  - destruct H as [<- | H]; [lia | apply IH in H; lia].
  - apply IH in H. lia.
Qed.

Lemma positions_nil_iff (label : string) (labels : list string) (from : nat) :
  positions label labels from = [] <-> PyStr.mem label labels = false.
Proof.
  unfold PyStr.mem. revert from.
  induction labels as [|l ls IH]; intros from; simpl; [tauto|].
  rewrite (String.eqb_sym label l).
  destruct (String.eqb l label); simpl; [split; discriminate | apply IH].
Qed.

Lemma locate_one (df : DataFrame) (label : string) (pos : nat) :
  locate df label = OneColumn pos ->
  positions label (columns df) 0 = [pos] /\ pos < length (columns df).
Proof.
  unfold locate. intros H.
  destruct (positions label (columns df) 0) as [|p [|q ps]] eqn:E; try discriminate.
  injection H as ->. split; [reflexivity|].
  assert (Hin : In pos (positions label (columns df) 0)) by (rewrite E; left; reflexivity).
  apply positions_bounds in Hin. lia.
Qed.

Lemma locate_none (df : DataFrame) (label : string) :
  locate df label = NoColumn -> has_column df label = false.
Proof.
  unfold locate, has_column. intros H.
  destruct (positions label (columns df) 0) as [|p [|q ps]] eqn:E; try discriminate.
  eapply positions_nil_iff, E.
Qed.

Lemma locate_found (df : DataFrame) (label : string) :
  locate df label <> NoColumn -> has_column df label = true.
Proof.
  intros H. destruct (has_column df label) eqn:E; [reflexivity|].
  exfalso. apply H. unfold locate.
  apply (positions_nil_iff label (columns df) 0) in E. rewrite E. reflexivity.
Qed.

Lemma frame_setitem_one (df : DataFrame) (label : string) (pos : nat) (values : list Cell) :
  locate df label = OneColumn pos ->
  frame_setitem df label values = assign_at df pos values.
Proof.
  intros H. apply locate_one in H as [E _].
  unfold frame_setitem. rewrite E. reflexivity.
Qed.

Lemma frame_setitem_rectangular (df : DataFrame) (label : string) (values : list Cell) :
  rectangular df -> length values = length (data df) ->
  rectangular (frame_setitem df label values).
Proof.
  intros R Hlen. unfold frame_setitem.
  destruct (positions label (columns df) 0) as [|p ps].
  - unfold rectangular. simpl. rewrite length_app, Nat.add_1_r.
    apply append_rows_widths; assumption.
  - generalize (p :: ps). intros l. revert df R Hlen.
    induction l as [|q l IH]; intros df R Hlen; simpl; [exact R|].
    apply IH.
    + apply assign_at_rectangular, R.
    + simpl. rewrite assign_rows_length. exact Hlen.
Qed.

Lemma frame_setitem_rows (df : DataFrame) (label : string) (values : list Cell) :
  length values = length (data df) ->
  length (data (frame_setitem df label values)) = length (data df).
Proof.
  intros Hlen. unfold frame_setitem.
  destruct (positions label (columns df) 0) as [|p ps].
  - simpl. revert values Hlen.
    induction (data df) as [|row rows IH]; intros [|v values] Hlen;
      simpl in *; try discriminate; auto.
  - generalize (p :: ps). intros l. revert df Hlen.
    induction l as [|q l IH]; intros df Hlen; simpl; [reflexivity|].
    rewrite IH; simpl; rewrite assign_rows_length; auto.
Qed.

Lemma series_at_length (df : DataFrame) (pos : nat) :
  length (series_at df pos) = length (data df).
Proof. apply length_map. Qed.

Lemma series_assign_at (df : DataFrame) (pos : nat) (values : list Cell) :
  rectangular df -> pos < length (columns df) ->
  length values = length (data df) ->
  series_at (assign_at df pos values) pos = values.
Proof.
  intros R Hpos Hlen. unfold series_at, assign_at. simpl.
  apply assign_rows_read; [|exact Hlen].
  eapply Forall_impl; [|exact R]. simpl. intros row ->. exact Hpos.
Qed.

Lemma frame_insert_rectangular (df df' : DataFrame) (loc : nat) (label : string) (v : Cell) :
  rectangular df -> frame_insert df loc label v = Ok df' -> rectangular df'.
Proof.
  unfold frame_insert. intros R H.
  destruct (length (columns df) <? loc) eqn:E; [discriminate|].
  destruct (has_column df label); [discriminate|].
  injection H as <-. apply Nat.ltb_ge in E.
  unfold rectangular, insert_at. simpl.
  apply Forall_forall. intros row Hin.
  apply in_map_iff in Hin as [r [<- Hr]].
  unfold rectangular in R. rewrite Forall_forall in R. specialize (R r Hr).
  rewrite !length_app. simpl. rewrite !length_firstn, !length_skipn. lia.
Qed.

Lemma split_ticker_assign_rectangular (df df' : DataFrame) :
  rectangular df -> split_ticker_assign df = Ok df' -> rectangular df'.
Proof.
  unfold split_ticker_assign. intros R H.
  destruct (locate df "Ticker") as [|tpos|]; try discriminate.
  injection H as <-.
  apply frame_setitem_rectangular.
  - apply frame_setitem_rectangular; [exact R|].
    unfold ticker_symbols. rewrite !length_map. apply series_at_length.
  - unfold ticker_names, ticker_symbols.
    rewrite frame_setitem_rows; rewrite !length_map; apply series_at_length.
Qed.

Lemma split_ticker_column_rectangular (df df' : DataFrame) :
  rectangular df -> split_ticker_column df = Ok df' -> rectangular df'.
Proof.
  unfold split_ticker_column. intros R H.
  destruct (negb (has_column df "Ticker")); [injection H as <-; exact R|].
  destruct (locate df "Company Name") as [|npos|]; try discriminate.
  - destruct (frame_insert df 1 "Company Name" (Some "")) as [dfi|e] eqn:E;
      simpl in H; [|discriminate].
    eapply split_ticker_assign_rectangular; [|exact H].
    eapply frame_insert_rectangular; eauto.
  - destruct (notna_any (series_at df npos)); [injection H as <-; exact R|].
    eapply split_ticker_assign_rectangular; eauto.
Qed.

Lemma frame_of_rows_rectangular (rs : list (list string)) (labels : list string) (df : DataFrame) :
  frame_of_rows rs labels = Ok df -> rectangular df.
Proof.
  unfold frame_of_rows. intros H.
  destruct (list_max (map (@length string) rs) =? length labels) eqn:E; [|discriminate].
  injection H as <-. apply Nat.eqb_eq in E.
  unfold rectangular. simpl. apply Forall_forall. intros row Hin.
  apply in_map_iff in Hin as [r [<- Hr]].
  rewrite length_app, length_map, repeat_length, <- E.
  assert (length r <= list_max (map (@length string) rs))
    by (apply list_max_bound, in_map, Hr).
  lia.
Qed.

Lemma empty_frame_rectangular : rectangular empty_frame.
Proof. constructor. Qed.

(** Whatever the page returns, the frame handed back by the row extractor
    is rectangular. *)
Lemma extract_table_rectangular (evaluated : result TableData) :
  rectangular (extract_table_data_fast evaluated).
Proof.
  unfold extract_table_data_fast.
  destruct (rbind evaluated extract_body) as [df|e] eqn:E;
    [|apply empty_frame_rectangular].
  destruct evaluated as [td|e]; simpl in E; [|discriminate].
  unfold extract_body in E.
  destruct (negb (is_nil (adjust_headers (headers td))) && negb (is_nil (rows td)));
    [|injection E as <-; apply empty_frame_rectangular].
  destruct (reconcile_columns (adjust_headers (headers td)) (rows td)) as [hfit rpad].
  destruct (frame_of_rows rpad hfit) as [df0|e] eqn:E0; simpl in E; [|discriminate].
  apply frame_of_rows_rectangular in E0.
  destruct (has_column df0 "Ticker").
  - eapply split_ticker_column_rectangular; eauto.
  - injection E as <-. exact E0.
Qed.

(** ** Row extractor *)

(** C6: when the first header token, lowercased, is 'ticker' or 'symbol',
    header reconciliation gives ['Ticker', 'Company Name'] followed by the
    remaining original headers; the header ['symbol', 'Price', 'Change']
    becomes ['Ticker', 'Company Name', 'Price', 'Change']. *)
Theorem adjust_headers_ticker_symbol (first : string) (rest : list string) :
  PyStr.lower first = "ticker" \/ PyStr.lower first = "symbol" ->
  adjust_headers (first :: rest) = "Ticker" :: "Company Name" :: rest
  /\ adjust_headers ["symbol"; "Price"; "Change"]
     = ["Ticker"; "Company Name"; "Price"; "Change"].
Proof.
  intros H. split; [|reflexivity].
  unfold adjust_headers. destruct H as [-> | ->]; reflexivity.
Qed.

Lemma adjust_headers_ticker_symbol_witness :
  (PyStr.lower "SYMBOL" = "ticker" \/ PyStr.lower "SYMBOL" = "symbol")
  /\ adjust_headers ["SYMBOL"; "Price"] = ["Ticker"; "Company Name"; "Price"].
Proof.
  split.
  - right. reflexivity.
  - apply (adjust_headers_ticker_symbol "SYMBOL" ["Price"]). right. reflexivity.
Defined.

(** Any other first token, and the empty header list, are left as they are. *)
Lemma adjust_headers_other (first : string) (rest : list string) :
  PyStr.lower first <> "ticker" -> PyStr.lower first <> "symbol" ->
  adjust_headers (first :: rest) = first :: rest.
Proof.
  intros H1 H2. unfold adjust_headers, PyStr.mem. simpl.
  apply String.eqb_neq in H1, H2. rewrite H1, H2. reflexivity.
Qed.

(** C1: with a non-empty header list and a non-empty row list, the column
    counts are reconciled on the maximum row width: the header list is
    padded with the placeholders Column_i or truncated to that width, every
    row is padded on the right with empty strings to that width, every
    padded row is as long as the final header list, the frame is built from
    exactly these rows, and the frame that is returned is rectangular. *)
Theorem extract_table_never_ragged (hs : list string) (rs : list (list string)) :
  adjust_headers hs <> [] -> rs <> [] ->
  let headers_adj := adjust_headers hs in
  let width := list_max (map (@length string) rs) in
  let final_headers := fst (reconcile_columns headers_adj rs) in
  let rows_padded := snd (reconcile_columns headers_adj rs) in
  length final_headers = width
  /\ final_headers
     = (if length headers_adj <? width
        then headers_adj
             ++ map column_placeholder (seq (length headers_adj) (width - length headers_adj))
        else firstn width headers_adj)
  /\ rows_padded = map (fun row => row ++ repeat "" (width - length row)) rs
  /\ Forall (fun row => length row = length final_headers) rows_padded
  /\ frame_of_rows rows_padded final_headers
     = Ok {| columns := final_headers; data := map (map Some) rows_padded |}
  /\ rectangular (extract_table_data_fast (Ok {| headers := hs; rows := rs |})).
Proof.
  intros Hh Hr headers_adj width final_headers rows_padded.
  assert (Hw : max_cols headers_adj rs = width).
  { unfold max_cols. destruct rs; [congruence | reflexivity]. }
  assert (Hfinal : final_headers = fit_headers headers_adj width).
  { unfold final_headers, reconcile_columns. simpl. rewrite Hw. reflexivity. }
  assert (Hrows : rows_padded = map (pad_row width) rs).
  { unfold rows_padded, reconcile_columns. simpl. rewrite Hw. reflexivity. }
  assert (Hlen : length final_headers = width).
  { rewrite Hfinal. apply fit_headers_length. }
  assert (Hall : Forall (fun row => length row = width) rows_padded).
  { rewrite Hrows. apply padded_rows_width. }
  repeat split.
  - exact Hlen.
  - rewrite Hfinal. reflexivity.
  - rewrite Hrows. reflexivity.
  - rewrite Hlen. exact Hall.
  - unfold frame_of_rows.
    assert (Hmax : list_max (map (@length string) rows_padded) = width).
    { apply list_max_const.
      - rewrite Hrows. destruct rs; [congruence | discriminate].
      - apply Forall_map. exact Hall. }
    rewrite Hmax, Hlen, Nat.eqb_refl. do 2 f_equal.
    apply map_ext_in. intros row Hin.
    rewrite Forall_forall in Hall. rewrite (Hall row Hin), Nat.sub_diag.
    apply app_nil_r.
  - apply extract_table_rectangular.
Qed.

Lemma extract_table_never_ragged_witness :
  extract_table_data_fast
    (Ok {| headers := ["symbol"; "Price"];
           rows := [["AAPL"; "Apple Inc."; "1.00"; "x"]; ["MSFT"; ""]] |})
  = {| columns := ["Ticker"; "Company Name"; "Price"; "Column_3"];
       data := [[Some "AAPL"; Some "Apple Inc."; Some "1.00"; Some "x"];
                [Some "MSFT"; Some ""; Some ""; Some ""]] |}
  /\ rectangular
       (extract_table_data_fast
          (Ok {| headers := ["symbol"; "Price"];
                 rows := [["AAPL"; "Apple Inc."; "1.00"; "x"]; ["MSFT"; ""]] |})).
Proof.
  split; [reflexivity|].
  apply (extract_table_never_ragged
           ["symbol"; "Price"]
           [["AAPL"; "Apple Inc."; "1.00"; "x"]; ["MSFT"; ""]]);
    simpl; discriminate.
Defined.

(** ** Column reconciler *)

Example extract_ticker_parts_two_lines :
  extract_ticker_parts (Some ("AAPL" ++ String PyStr.newline "Apple Inc.")%string)
  = ("AAPL", "Apple Inc.").
Proof. reflexivity. Qed.

Example extract_ticker_parts_symbol_only :
  extract_ticker_parts (Some "MSFT") = ("MSFT", "").
Proof. reflexivity. Qed.

Example extract_ticker_parts_prefix :
  extract_ticker_parts (Some "AAPL Apple Inc.") = ("AAPL", "Apple Inc.").
Proof. reflexivity. Qed.

Example extract_ticker_parts_fallback :
  extract_ticker_parts (Some "Apple Inc.") = ("Apple Inc.", "").
Proof. reflexivity. Qed.

Lemma split_ticker_assign_value (df : DataFrame) (tpos npos : nat) :
  locate df "Ticker" = OneColumn tpos ->
  locate df "Company Name" = OneColumn npos ->
  split_ticker_assign df
  = Ok (assign_at (assign_at df tpos (ticker_symbols df tpos)) npos (ticker_names df tpos)).
Proof.
  intros Ht Hn. unfold split_ticker_assign. rewrite Ht.
  rewrite (frame_setitem_one df "Ticker" tpos) by exact Ht.
  rewrite (frame_setitem_one _ "Company Name" npos) by exact Hn.
  reflexivity.
Qed.

Lemma notna_any_all_some (values : list Cell) :
  values <> [] -> Forall (fun c => c <> None) values -> notna_any values = true.
Proof.
  intros Hne F. destruct values as [|[s|] values]; [congruence | reflexivity |].
  inversion F; congruence.
Qed.

Lemma assign_at_no_rows (df : DataFrame) (pos : nat) (values : list Cell) :
  data df = [] -> assign_at df pos values = df.
Proof.
  destruct df as [cols rows]. simpl. intros ->. reflexivity.
Qed.

(** A frame whose name column has just been written is left alone by the
    reconciler. *)
Lemma split_ticker_column_after_assign (df : DataFrame) (tpos npos : nat) :
  rectangular df ->
  locate df "Ticker" = OneColumn tpos ->
  locate df "Company Name" = OneColumn npos ->
  let df2 := assign_at (assign_at df tpos (ticker_symbols df tpos)) npos (ticker_names df tpos) in
  split_ticker_column df2 = Ok df2.
Proof.
  intros R Ht Hn df2.
  assert (Hcols : columns df2 = columns df) by reflexivity.
  assert (Ht2 : locate df2 "Ticker" = OneColumn tpos) by exact Ht.
  assert (Hn2 : locate df2 "Company Name" = OneColumn npos) by exact Hn.
  unfold split_ticker_column.
  rewrite (locate_found df2 "Ticker") by (rewrite Ht2; discriminate).
  simpl negb. cbv iota. rewrite Hn2.
  destruct (data df) as [|row rows] eqn:Hd.
  - (* no rows: nothing is populated, and overwriting changes nothing *)
    assert (Hd2 : data df2 = []).
    { unfold df2. simpl. rewrite Hd. reflexivity. }
    assert (Hs : series_at df2 npos = []) by (unfold series_at; rewrite Hd2; reflexivity).
    rewrite Hs. simpl.
    rewrite (split_ticker_assign_value df2 tpos npos Ht2 Hn2).
    rewrite (assign_at_no_rows df2 tpos) by exact Hd2.
    rewrite (assign_at_no_rows df2 npos) by exact Hd2.
    reflexivity.
  - assert (Hread : series_at df2 npos = ticker_names df tpos).
    { unfold df2. apply series_assign_at.
      + apply assign_at_rectangular, R.
      + apply locate_one in Hn. tauto.
      + simpl. rewrite assign_rows_length. unfold ticker_names.
        rewrite !length_map. apply series_at_length. }
    rewrite Hread, notna_any_all_some; [reflexivity | |].
    + unfold ticker_names, series_at. rewrite Hd. discriminate.
    + unfold ticker_names. rewrite !Forall_map. apply Forall_forall.
      intros; discriminate.
Qed.

Lemma positions_insert_name (cols : list string) :
  PyStr.mem "Company Name" cols = false -> cols <> [] ->
  positions "Company Name" (insert_at 1 "Company Name" cols) 0 = [1].
Proof.
  intros Hmem Hne. destruct cols as [|c0 ct]; [congruence|].
  unfold insert_at. cbn [firstn skipn app positions].
  unfold PyStr.mem in Hmem. cbn [existsb] in Hmem.
  apply orb_false_elim in Hmem as [H0 Ht].
  rewrite String.eqb_sym in H0. rewrite H0, String.eqb_refl.
  assert (E : positions "Company Name" ct 2 = []).
  { apply positions_nil_iff. exact Ht. }
  rewrite E. reflexivity.
Qed.

(** C2: on every (rectangular) frame, applying the reconciler to its own
    result changes nothing more, whether the first application returned or
    raised; and when a populated 'Company Name' column exists the frame is
    returned unchanged. *)
Theorem split_ticker_column_idempotent (df : DataFrame) :
  rectangular df ->
  rbind (split_ticker_column df) split_ticker_column = split_ticker_column df
  /\ (forall npos,
        locate df "Company Name" = OneColumn npos ->
        notna_any (series_at df npos) = true ->
        split_ticker_column df = Ok df).
Proof.
  intros R. split.
  - destruct (split_ticker_column df) as [df'|e] eqn:E; [|reflexivity].
    simpl. revert E. unfold split_ticker_column at 1.
    destruct (has_column df "Ticker") eqn:Hh; simpl.
    2:{ intros E. injection E as <-. unfold split_ticker_column. rewrite Hh. reflexivity. }
    destruct (locate df "Company Name") as [|npos|] eqn:Hn; try discriminate.
    + (* the name column is inserted first *)
      destruct (frame_insert df 1 "Company Name" (Some "")) as [dfi|e] eqn:Ei;
        simpl; [|discriminate].
      assert (Ri : rectangular dfi) by (eapply frame_insert_rectangular; eauto).
      unfold frame_insert in Ei.
      destruct (length (columns df) <? 1) eqn:El; [discriminate|].
      destruct (has_column df "Company Name") eqn:Hc; [discriminate|].
      injection Ei as Ei.
      assert (Hni : locate dfi "Company Name" = OneColumn 1).
      { unfold locate. rewrite <- Ei. simpl.
        rewrite positions_insert_name; [reflexivity | exact Hc |].
        apply Nat.ltb_ge in El. destruct (columns df); [simpl in El; lia | discriminate]. }
      intros E. unfold split_ticker_assign in E.
      destruct (locate dfi "Ticker") as [|tpos|] eqn:Hti; try discriminate.
      fold (split_ticker_assign dfi) in E.
      assert (E' := split_ticker_assign_value dfi tpos 1 Hti Hni).
      unfold split_ticker_assign in E'. rewrite Hti in E'. rewrite E' in E.
      injection E as <-.
      apply split_ticker_column_after_assign; assumption.
    + destruct (notna_any (series_at df npos)) eqn:Hp.
      * intros E. injection E as <-. unfold split_ticker_column.
        rewrite Hh, Hn, Hp. reflexivity.
      * intros E. unfold split_ticker_assign in E.
        destruct (locate df "Ticker") as [|tpos|] eqn:Ht; try discriminate.
        assert (E' := split_ticker_assign_value df tpos npos Ht Hn).
        unfold split_ticker_assign in E'. rewrite Ht in E'. rewrite E' in E.
        injection E as <-.
        apply split_ticker_column_after_assign; assumption.
  - intros npos Hn Hp. unfold split_ticker_column.
    destruct (negb (has_column df "Ticker")); [reflexivity|].
    rewrite Hn, Hp. reflexivity.
Qed.

Lemma split_ticker_column_idempotent_witness :
  split_ticker_column
    {| columns := ["Ticker"; "Price"];
       data := [[Some "AAPL Apple Inc."; Some "1.00"]; [Some "MSFT"; Some "2.00"]] |}
  = Ok {| columns := ["Ticker"; "Company Name"; "Price"];
          data := [[Some "AAPL"; Some "Apple Inc."; Some "1.00"];
                   [Some "MSFT"; Some ""; Some "2.00"]] |}
  /\ rbind (split_ticker_column
              {| columns := ["Ticker"; "Price"];
                 data := [[Some "AAPL Apple Inc."; Some "1.00"]; [Some "MSFT"; Some "2.00"]] |})
           split_ticker_column
     = split_ticker_column
         {| columns := ["Ticker"; "Price"];
            data := [[Some "AAPL Apple Inc."; Some "1.00"]; [Some "MSFT"; Some "2.00"]] |}.
Proof.
  split; [reflexivity|].
  apply (split_ticker_column_idempotent
           {| columns := ["Ticker"; "Price"];
              data := [[Some "AAPL Apple Inc."; Some "1.00"]; [Some "MSFT"; Some "2.00"]] |}).
  repeat constructor.
Defined.

(** C10: a frame with a 'Company Name' column whose values are all empty
    strings is returned unchanged, combined text in 'Ticker' included: an
    empty string is not a missing value, so the column counts as populated.
    (With no row at all there is no value to count, and the frame comes back
    unchanged as long as the label 'Ticker' is not duplicated.) *)
Theorem split_ticker_column_blank_names (df : DataFrame) (npos : nat) :
  locate df "Company Name" = OneColumn npos ->
  Forall (fun c => c = Some "") (series_at df npos) ->
  data df <> [] \/ locate df "Ticker" <> ManyColumns ->
  split_ticker_column df = Ok df.
Proof.
  intros Hn Hall Hrows. unfold split_ticker_column.
  destruct (has_column df "Ticker") eqn:Hh; [|reflexivity].
  simpl negb. cbv iota. rewrite Hn.
  destruct (data df) as [|row rows] eqn:Hd.
  - assert (Hs : series_at df npos = []) by (unfold series_at; rewrite Hd; reflexivity).
    rewrite Hs. simpl.
    destruct (locate df "Ticker") as [|tpos|] eqn:Ht.
    + apply locate_none in Ht. congruence.
    + rewrite (split_ticker_assign_value df tpos npos Ht Hn).
      rewrite (assign_at_no_rows df tpos) by exact Hd.
      rewrite (assign_at_no_rows df npos) by exact Hd.
      reflexivity.
    + destruct Hrows as [H|H]; congruence.
  - unfold series_at in *. rewrite Hd in *. simpl in *.
    inversion Hall as [|c cs Hc _]. rewrite Hc. reflexivity.
Qed.

Lemma split_ticker_column_blank_names_witness :
  split_ticker_column
    {| columns := ["Ticker"; "Company Name"; "Price"];
       data := [[Some "AAPL Apple Inc."; Some ""; Some "1.00"]] |}
  = Ok {| columns := ["Ticker"; "Company Name"; "Price"];
          data := [[Some "AAPL Apple Inc."; Some ""; Some "1.00"]] |}.
Proof.
  apply (split_ticker_column_blank_names
           {| columns := ["Ticker"; "Company Name"; "Price"];
              data := [[Some "AAPL Apple Inc."; Some ""; Some "1.00"]] |} 1).
  - reflexivity.
  - repeat constructor.
  - left. discriminate.
Defined.

(** ** Session controller *)

(** C8: [close] never raises.  The browser and the engine are torn down in
    two independently guarded steps: a step is skipped when its field is
    None, a failure of a step is logged and swallowed, and the engine step
    runs whatever the outcome of the browser step. *)
Theorem close_never_raises (w : World) (s : Scraper) :
  let browser_log :=
    match browser s with
    | None => []
    | Some _ => match browser_close w (history s) with
                | Ok _ => [LogBrowserClosed]
                | Raise e => [LogErrorClosingBrowser e]
                end
    end in
  let h1 := if is_some (browser s) then CallBrowserClose :: history s else history s in
  let engine_log :=
    match playwright s with
    | None => []
    | Some _ => match playwright_stop w h1 with
                | Ok _ => [LogPlaywrightStopped]
                | Raise e => [LogErrorStoppingPlaywright e]
                end
    end in
  close w s
  = (Ok tt,
     {| browser := browser s; playwright := playwright s;
        total_rows_loaded := total_rows_loaded s;
        history := if is_some (playwright s) then CallPlaywrightStop :: h1 else h1;
        log := engine_log ++ browser_log ++ log s |}).
Proof.
  destruct s as [b p total h l].
  unfold close, bind, try_except, get, call, print, ret, record_call, record_log.
  simpl.
  destruct b as [hb|], p as [hp|]; simpl;
    repeat match goal with
           | |- context [browser_close w ?x] => destruct (browser_close w x) as [[]|?]; simpl
           | |- context [playwright_stop w ?x] => destruct (playwright_stop w x) as [[]|?]; simpl
           end; reflexivity.
Qed.

(** Closing a scraper that was never started touches nothing. *)
Lemma close_fresh (w : World) : close w fresh_scraper = (Ok tt, fresh_scraper).
Proof. reflexivity. Qed.

(** ** Pagination driver *)

Lemma same_session_refl (s : Scraper) : same_session s s.
Proof. repeat split. Qed.

Lemma same_session_trans (s1 s2 s3 : Scraper) :
  same_session s1 s2 -> same_session s2 s3 -> same_session s1 s3.
Proof. unfold same_session. intuition congruence. Qed.

(** One pass through the [try] body makes exactly one visibility probe, and
    completes a click exactly when it reaches [clicks += 1]. *)
Lemma load_more_attempt_spec (w : World) (s : Scraper) :
  forall r s', load_more_attempt w s = (r, s') ->
    probes (history s') = S (probes (history s))
    /\ completed_clicks w (history s')
       = completed_clicks w (history s)
         + (match r with Ok true => 1 | _ => 0 end)
    /\ same_session s s'.
Proof.
  intros r s'. unfold load_more_attempt, bind, call, ret. simpl.
  destruct (load_more_visible w (history s)) as [[|]|e]; simpl.
  - destruct (load_more_scroll w (CallIsVisible :: history s)) as [[]|e]; simpl.
    + destruct (load_more_click w (CallScrollIntoView :: CallIsVisible :: history s))
        as [[]|e] eqn:Ec; simpl;
        intros H; injection H as <- <-; simpl; rewrite Ec;
        (split; [reflexivity | split; [lia | repeat split]]).
    + intros H; injection H as <- <-; simpl.
      split; [reflexivity | split; [lia | repeat split]].
  - intros H; injection H as <- <-; simpl.
    split; [reflexivity | split; [lia | repeat split]].
  - intros H; injection H as <- <-; simpl.
    split; [reflexivity | split; [lia | repeat split]].
Qed.

(** what one iteration does to the counters and to the history *)
Lemma iteration_spec (w : World) (clicks failures : nat) (s : Scraper) :
  forall step s', iteration w clicks failures s = (step, s') ->
    probes (history s') = S (probes (history s))
    /\ same_session s s'
    /\ match step with
       | Break c =>
           c = clicks
           /\ completed_clicks w (history s') = completed_clicks w (history s)
       | Continue c f =>
           (c = S clicks /\ f = 0
            /\ completed_clicks w (history s') = S (completed_clicks w (history s)))
           \/ (c = clicks /\ f = S failures /\ failures = 0
               /\ completed_clicks w (history s') = completed_clicks w (history s))
       end.
Proof.
  intros step s'. unfold iteration.
  destruct (load_more_attempt w s) as [r s1] eqn:E.
  apply load_more_attempt_spec in E as (Hp & Hc & Hs).
  destruct r as [[|]|e].
  - intros H; injection H as <- <-.
    split; [exact Hp | split; [exact Hs | left; repeat split; lia]].
  - intros H; injection H as <- <-.
    split; [exact Hp | split; [exact Hs | split; lia]].
  - destruct e;
      try (intros H; injection H as <- <-;
           split; [exact Hp | split; [exact Hs | split; lia]]).
    destruct (2 <=? failures + 1) eqn:E2; intros H; injection H as <- <-.
    + split; [exact Hp | split; [exact Hs | split; lia]].
    + apply Nat.leb_gt in E2.
      split; [exact Hp | split; [exact Hs | right; repeat split; lia]].
Qed.

(** The loop, started with [clicks] clicks done and [failures] time-outs in
    a row: the counter it returns stays within the budget, it counts the
    completed clicks, and the number of iterations is bounded by what is
    left of the budget. *)
Lemma load_more_loop_spec (w : World) (clicks failures : nat) (s : Scraper) :
  clicks <= max_clicks -> failures <= 1 ->
  clicks <= fst (load_more_loop w clicks failures s) <= max_clicks
  /\ completed_clicks w (history (snd (load_more_loop w clicks failures s)))
     = completed_clicks w (history s) + (fst (load_more_loop w clicks failures s) - clicks)
  /\ probes (history (snd (load_more_loop w clicks failures s)))
     <= probes (history s) + (2 * (max_clicks - clicks) - failures)
  /\ same_session s (snd (load_more_loop w clicks failures s)).
Proof.
  funelim (load_more_loop w clicks failures s); intros Hc Hf;
    try match goal with
        | Hi : iteration _ _ _ _ = _ |- _ =>
            destruct (iteration_spec _ _ _ _ _ _ Hi) as (Hp & Hs & Hk)
        end;
    try match goal with
        | Hb : (_ <? _) = true |- _ => pose proof (proj1 (Nat.ltb_lt _ _) Hb) as Hlt'
        end;
    cbn [fst snd].
  - (* the budget is used up *)
    split; [lia | split; [lia | split; [lia | apply same_session_refl]]].
  - (* a further iteration *)
    match goal with
    | IH : _ -> _ -> _ |- _ =>
        destruct IH as (Hb & Hcc & Hpp & Hss);
          [ unfold max_clicks in *; lia | lia | ]
    end.
    unfold max_clicks in *.
    split; [lia | split; [lia | split; [lia |]]].
    eapply same_session_trans; eauto.
  - (* the body ends the loop *)
    destruct Hk as [-> Hk]. unfold max_clicks in *.
    split; [lia | split; [lia | split; [lia | exact Hs]]].
Qed.

Lemma get_current_row_count_value (w : World) (s : Scraper) :
  get_current_row_count w s
  = (Ok (row_count_at w (history s)), record_call CallRowCount s).
Proof.
  unfold get_current_row_count, try_except, call, ret, row_count_at.
  destruct (count_rows w (history s)); reflexivity.
Qed.

Lemma set_total_rows_loaded_same (s : Scraper) :
  set_total_rows_loaded (total_rows_loaded s) s = s.
Proof. destruct s; reflexivity. Qed.

(** Once the loop is entered, the count is sampled again when it ends and
    the cumulative maximum is raised to it. *)
Lemma paginate_value (w : World) (s : Scraper) :
  let s_end := snd (load_more_loop w 0 0 s) in
  paginate w s
  = (Ok (fst (load_more_loop w 0 0 s)),
     set_total_rows_loaded
       (Nat.max (total_rows_loaded s_end) (row_count_at w (history s_end)))
       (record_call CallRowCount s_end)).
Proof.
  unfold paginate, bind at 1.
  destruct (load_more_loop w 0 0 s) as [c s1]. cbn [fst snd].
  unfold bind at 1. rewrite get_current_row_count_value.
  unfold bind, get, ret. cbn [total_rows_loaded record_call].
  destruct (total_rows_loaded s1 <? row_count_at w (history s1)) eqn:E.
  - apply Nat.ltb_lt in E. rewrite Nat.max_r by lia. reflexivity.
  - apply Nat.ltb_ge in E. rewrite Nat.max_l by lia.
    change (total_rows_loaded s1) with (total_rows_loaded (record_call CallRowCount s1)).
    rewrite set_total_rows_loaded_same. reflexivity.
Qed.

Lemma load_all_rows_value (w : World) (is_first_tab : bool) (s : Scraper) :
  load_all_rows w is_first_tab s
  = if is_first_tab then paginate w s
    else if rows_already_loaded (row_count_at w (history s)) (total_rows_loaded s)
         then (Ok 0, record_call CallRowCount s)
         else paginate w (record_call CallRowCount s).
Proof.
  unfold load_all_rows. destruct is_first_tab.
  - reflexivity.
  - unfold bind at 1. unfold bind at 1. rewrite get_current_row_count_value.
    unfold bind, get, ret. cbn [total_rows_loaded record_call].
    destruct (rows_already_loaded (row_count_at w (history s)) (total_rows_loaded s));
      reflexivity.
Qed.

(** C3: [load_all_rows] always returns; the counter it returns is at most
    150 and is the number of completed Load More clicks, and the loop makes
    at most 300 iterations (one visibility probe each), whether the control
    disappears, times out twice in a row, fails otherwise, or keeps
    responding. *)
Theorem load_all_rows_bounded (w : World) (is_first_tab : bool) (s : Scraper) :
  exists clicks s',
    load_all_rows w is_first_tab s = (Ok clicks, s')
    /\ clicks <= 150
    /\ completed_clicks w (history s') = completed_clicks w (history s) + clicks
    /\ probes (history s') <= probes (history s) + 300.
Proof.
  assert (P : forall s0,
             exists clicks s', paginate w s0 = (Ok clicks, s')
               /\ clicks <= 150
               /\ completed_clicks w (history s') = completed_clicks w (history s0) + clicks
               /\ probes (history s') <= probes (history s0) + 300).
  { intros s0. rewrite paginate_value.
    destruct (load_more_loop_spec w 0 0 s0) as (Hb & Hc & Hp & _);
      [unfold max_clicks; lia | lia |].
    unfold max_clicks in *.
    eexists _, _. split; [reflexivity|]. cbn [history set_total_rows_loaded record_call].
    cbn [completed_clicks probes]. split; [lia | split; lia]. }
  rewrite load_all_rows_value. destruct is_first_tab; [apply P|].
  destruct (rows_already_loaded (row_count_at w (history s)) (total_rows_loaded s)).
  - eexists _, _. split; [reflexivity|]. simpl. split; [lia | split; lia].
  - destruct (P (record_call CallRowCount s)) as (c & s' & E & Hc & Hk & Hp).
    exists c, s'. split; [exact E|]. simpl in *. split; [lia | split; lia].
Qed.

(** Both bounds are reached: a control that always responds is clicked 150
    times, and one whose every other probe times out takes 300 iterations
    for its 150 clicks. *)
Example load_all_rows_eager_world :
  let r := load_all_rows eager_world true (session_with 0) in
  (fst r, probes (history (snd r)), total_rows_loaded (snd r)) = (Ok 150, 150, 250).
Proof. vm_compute. reflexivity. Qed.

Example load_all_rows_flaky_world :
  let r := load_all_rows flaky_world true (session_with 0) in
  (fst r, probes (history (snd r)), total_rows_loaded (snd r)) = (Ok 150, 300, 250).
Proof. vm_compute. reflexivity. Qed.

(** Two time-outs in a row end the loop after two iterations. *)
Example load_all_rows_broken_world :
  let r := load_all_rows broken_world true (session_with 0) in
  (fst r, probes (history (snd r)), total_rows_loaded (snd r)) = (Ok 0, 2, 0).
Proof. vm_compute. reflexivity. Qed.

(** C4, as the code has it: when the pagination loop is entered (first tab,
    or a sampled count below 95% of the cumulative maximum), then however
    the loop ends the count is sampled again before returning and the
    cumulative maximum becomes the larger of its old value and that count;
    on the skip path the function returns 0 right after its one sample,
    without entering the loop and without a second sample. *)
Theorem load_all_rows_resample (w : World) (is_first_tab : bool) (s : Scraper) :
  let sampled := row_count_at w (history s) in
  let entered := if is_first_tab then s else record_call CallRowCount s in
  let s_end := snd (load_more_loop w 0 0 entered) in
  let final_count := row_count_at w (history s_end) in
  (is_first_tab = false ->
   rows_already_loaded sampled (total_rows_loaded s) = true ->
   fst (load_all_rows w is_first_tab s) = Ok 0
   /\ history (snd (load_all_rows w is_first_tab s)) = CallRowCount :: history s)
  /\ (is_first_tab = true \/ rows_already_loaded sampled (total_rows_loaded s) = false ->
      load_all_rows w is_first_tab s
      = (Ok (fst (load_more_loop w 0 0 entered)),
         set_total_rows_loaded (Nat.max (total_rows_loaded s) final_count)
           (record_call CallRowCount s_end))
      /\ resampled_and_updated w s (snd (load_all_rows w is_first_tab s))).
Proof.
  intros sampled entered s_end final_count. split.
  - intros -> Hskip. rewrite load_all_rows_value.
    fold sampled. rewrite Hskip. split; reflexivity.
  - intros Henter.
    assert (E : load_all_rows w is_first_tab s = paginate w entered).
    { rewrite load_all_rows_value. unfold entered. fold sampled.
      destruct is_first_tab; [reflexivity|].
      destruct Henter as [H|H]; [discriminate | rewrite H; reflexivity]. }
    assert (Ht : total_rows_loaded s_end = total_rows_loaded s).
    { destruct (load_more_loop_spec w 0 0 entered) as (_ & _ & _ & Hs);
        [unfold max_clicks; lia | lia |].
      destruct Hs as (_ & _ & Hs & _). fold s_end in Hs. rewrite Hs.
      unfold entered. destruct is_first_tab; reflexivity. }
    rewrite E, paginate_value. fold s_end. fold final_count. rewrite Ht.
    split; [reflexivity|].
    exists (history s_end). split; reflexivity.
Qed.

Lemma load_all_rows_resample_witness :
  resampled_and_updated (steady_world 50) (session_with 100)
    (snd (load_all_rows (steady_world 50) false (session_with 100))).
Proof.
  apply (load_all_rows_resample (steady_world 50) false (session_with 100)).
  right. reflexivity.
Defined.

(** C4, as the specification words it, fails on the skip path: a second tab
    that shows 200 rows when 100 is the maximum seen so far returns at once;
    the one sample taken is not repeated and the maximum stays at 100. *)
Lemma load_all_rows_skip_keeps_maximum :
  load_all_rows (steady_world 200) false (session_with 100)
  = (Ok 0, record_call CallRowCount (session_with 100))
  /\ total_rows_loaded (snd (load_all_rows (steady_world 200) false (session_with 100))) = 100
  /\ ~ resampled_and_updated (steady_world 200) (session_with 100)
         (snd (load_all_rows (steady_world 200) false (session_with 100))).
Proof.
  assert (E : load_all_rows (steady_world 200) false (session_with 100)
              = (Ok 0, record_call CallRowCount (session_with 100)))
    by (rewrite load_all_rows_value; reflexivity).
  rewrite E. split; [reflexivity | split; [reflexivity|]].
  intros (before & Hh & Ht). simpl in Hh. injection Hh as <-.
  vm_compute in Ht. discriminate.
Qed.

(** ** Tab iterator *)

Lemma click_tab_value (w : World) (tab_id : string) (s : Scraper) :
  click_tab w tab_id s
  = (Ok (match click_tab_button w (history s) tab_id with
         | Ok _ => true
         | Raise _ => false
         end),
     record_call (CallClickTab tab_id) s).
Proof.
  unfold click_tab, try_except, bind, call, ret.
  destruct (click_tab_button w (history s) tab_id); reflexivity.
Qed.

(** Pagination never raises and clicks no tab. *)
Lemma load_all_rows_returns (w : World) (is_first_tab : bool) (s : Scraper) :
  exists clicks s',
    load_all_rows w is_first_tab s = (Ok clicks, s')
    /\ tab_clicks (history s') = tab_clicks (history s).
Proof.
  assert (P : forall s0, exists clicks s',
               paginate w s0 = (Ok clicks, s')
               /\ tab_clicks (history s') = tab_clicks (history s0)).
  { intros s0. rewrite paginate_value.
    destruct (load_more_loop_spec w 0 0 s0) as (_ & _ & _ & Hs);
      [unfold max_clicks; lia | lia |].
    destruct Hs as (_ & _ & _ & _ & Hs).
    eexists _, _. split; [reflexivity | exact Hs]. }
  rewrite load_all_rows_value. destruct is_first_tab; [apply P|].
  destruct (rows_already_loaded (row_count_at w (history s)) (total_rows_loaded s)).
  - eexists _, _. split; reflexivity.
  - apply (P (record_call CallRowCount s)).
Qed.

(** A tab is scraped without raising, its button is clicked once, and when
    that click fails nothing else is done. *)
Lemma scrape_tab_returns (w : World) (tab_id tab_name : string) (is_first_tab : bool)
    (s : Scraper) :
  exists df s',
    scrape_tab w tab_id tab_name is_first_tab s = (Ok df, s')
    /\ tab_clicks (history s') = tab_id :: tab_clicks (history s)
    /\ (forall e, click_tab_button w (history s) tab_id = Raise e ->
          df = empty_frame /\ s' = record_call (CallClickTab tab_id) s).
Proof.
  unfold scrape_tab. unfold bind at 1. rewrite click_tab_value.
  destruct (click_tab_button w (history s) tab_id) as [[]|e0] eqn:Ec; cbn [negb].
  - destruct (load_all_rows_returns w is_first_tab (record_call (CallClickTab tab_id) s))
      as (c & s1 & E & Ht).
    unfold bind at 1. rewrite E. unfold bind, extract_table, ret.
    eexists _, _. split; [reflexivity|]. split; [exact Ht | discriminate].
  - eexists _, _. split; [reflexivity|]. split; [reflexivity|].
    intros e _. split; reflexivity.
Qed.

Lemma dict_set_keys {V : Type} (d : Dict V) (key : string) (v : V) :
  ~ In key (map fst d) -> map fst (dict_set d key v) = map fst d ++ [key].
Proof.
  induction d as [|[k v0] d IH]; simpl; intros H; [reflexivity|].
  destruct (String.eqb k key) eqn:E.
  - apply String.eqb_eq in E. tauto.
  - simpl. rewrite IH; tauto.
Qed.

Lemma dict_get_set_same {V : Type} (d : Dict V) (key : string) (v : V) :
  dict_get (dict_set d key v) key = Some v.
Proof.
  induction d as [|[k v0] d IH]; simpl.
  - rewrite String.eqb_refl. reflexivity.
  - destruct (String.eqb k key) eqn:E; simpl; rewrite E; auto.
Qed.

Lemma dict_get_set_other {V : Type} (d : Dict V) (key key' : string) (v : V) :
  key <> key' -> dict_get (dict_set d key v) key' = dict_get d key'.
Proof.
  intros Hne. induction d as [|[k v0] d IH]; simpl.
  - apply String.eqb_neq in Hne. rewrite Hne. reflexivity.
  - destruct (String.eqb k key) eqn:E; simpl.
    + apply String.eqb_eq in E. subst k.
      apply String.eqb_neq in Hne. rewrite Hne. reflexivity.
    + rewrite IH. reflexivity.
Qed.

(** The loop over the remaining tabs never stops early: it clicks every
    remaining tab in order, adds one entry per tab, and leaves the entries
    of the tabs already done alone. *)
Lemma scrape_tabs_returns (w : World) (remaining : list (string * string)) :
  forall (idx : nat) (acc : Dict DataFrame) (s : Scraper),
    NoDup (map fst acc ++ map snd remaining) ->
    exists all_data s',
      scrape_tabs w remaining idx acc s = (Ok all_data, s')
      /\ map fst all_data = map fst acc ++ map snd remaining
      /\ tab_clicks (history s') = rev (map fst remaining) ++ tab_clicks (history s)
      /\ (forall key, ~ In key (map snd remaining) ->
            dict_get all_data key = dict_get acc key).
Proof.
  induction remaining as [|[tab_id tab_name] rest IH]; intros idx acc s Hnd.
  - exists acc, s. simpl. rewrite app_nil_r. auto.
  - simpl scrape_tabs. unfold bind.
    destruct (scrape_tab_returns w tab_id tab_name (idx =? 0) s) as (df & s1 & E & Ht & _).
    rewrite E.
    assert (Hfresh : ~ In tab_name (map fst acc)).
    { simpl in Hnd. apply NoDup_remove_2 in Hnd.
      intros Hin. apply Hnd. apply in_or_app. left. exact Hin. }
    assert (Hkeys := dict_set_keys acc tab_name df Hfresh).
    destruct (IH (S idx) (dict_set acc tab_name df) s1) as (d & s' & E' & Hk & Hc & Hg).
    { rewrite Hkeys, <- app_assoc. exact Hnd. }
    exists d, s'. split; [exact E'|]. split; [|split].
    + rewrite Hk, Hkeys, <- app_assoc. reflexivity.
    + rewrite Hc, Ht. simpl. rewrite <- app_assoc. reflexivity.
    + intros key Hkey. simpl in Hkey. rewrite Hg by tauto.
      apply dict_get_set_other. tauto.
Qed.

Lemma scrape_tabs_app (w : World) (before rest : list (string * string)) :
  forall (idx : nat) (acc : Dict DataFrame) (s : Scraper),
    scrape_tabs w (before ++ rest) idx acc s
    = bind (scrape_tabs w before idx acc)
           (fun acc1 => scrape_tabs w rest (idx + length before) acc1) s.
Proof.
  induction before as [|[tab_id tab_name] before IH]; intros idx acc s.
  - simpl. unfold bind, ret. rewrite Nat.add_0_r. reflexivity.
  - simpl. unfold bind.
    destruct (scrape_tab w tab_id tab_name (idx =? 0) s) as [[df|e] s1]; [|reflexivity].
    rewrite IH. unfold bind. rewrite Nat.add_succ_r. reflexivity.
Qed.

Lemma tab_names_distinct : NoDup (map snd tabs).
Proof.
  simpl. repeat (constructor; [simpl; intuition discriminate|]). constructor.
Qed.

(** C7: when the click that activates a tab fails, [scrape_tab] returns the
    empty frame having made no other call; [scrape_all_tabs] always runs to
    the end, clicks all nine tabs in the fixed order and returns one entry
    per tab in that order; and a tab whose activation fails, wherever it is
    in the list, is recorded as empty while the tabs after it are processed
    as usual. *)
Theorem activation_failure_is_local (w : World) (s : Scraper) :
  (forall tab_id tab_name is_first_tab e,
      click_tab_button w (history s) tab_id = Raise e ->
      scrape_tab w tab_id tab_name is_first_tab s
      = (Ok empty_frame, record_call (CallClickTab tab_id) s))
  /\ (exists all_data s',
        scrape_all_tabs w s = (Ok all_data, s')
        /\ map fst all_data = map snd tabs
        /\ tab_clicks (history s') = rev (map fst tabs) ++ tab_clicks (history s))
  /\ (forall before tab_id tab_name after done s1 e,
        tabs = before ++ (tab_id, tab_name) :: after ->
        scrape_tabs w before 0 [] s = (Ok done, s1) ->
        click_tab_button w (history s1) tab_id = Raise e ->
        exists all_data s',
          scrape_all_tabs w s = (Ok all_data, s')
          /\ scrape_tabs w after (S (length before))
               (dict_set done tab_name empty_frame)
               (record_call (CallClickTab tab_id) s1)
             = (Ok all_data, s')
          /\ dict_get all_data tab_name = Some empty_frame
          /\ map fst all_data = map snd tabs).
Proof.
  split; [|split].
  - intros tab_id tab_name is_first_tab e He.
    destruct (scrape_tab_returns w tab_id tab_name is_first_tab s) as (df & s' & E & _ & Hf).
    destruct (Hf e He) as [-> ->]. exact E.
  - destruct (scrape_tabs_returns w tabs 0 [] s tab_names_distinct)
      as (d & s' & E & Hk & Hc & _).
    exists d, s'. split; [exact E | split; [exact Hk | exact Hc]].
  - intros before tab_id tab_name after done s1 e Htabs Hbefore He.
    assert (Hnd := tab_names_distinct). rewrite Htabs, map_app in Hnd.
    simpl map in Hnd.
    destruct (scrape_tabs_returns w before 0 [] s) as (d0 & s0 & E0 & Hk0 & _ & _).
    { simpl. apply NoDup_app_remove_r in Hnd. exact Hnd. }
    rewrite Hbefore in E0. injection E0 as <- <-. simpl in Hk0.
    destruct (scrape_tab_returns w tab_id tab_name (length before =? 0) s1)
      as (df & s2 & E2 & _ & Hf).
    destruct (Hf e He) as [-> ->].
    assert (Hfresh : ~ In tab_name (map fst done)).
    { rewrite Hk0. apply NoDup_remove_2 in Hnd. intros Hin. apply Hnd.
      apply in_or_app. left. exact Hin. }
    destruct (scrape_tabs_returns w after (S (length before))
                (dict_set done tab_name empty_frame)
                (record_call (CallClickTab tab_id) s1))
      as (d & s' & E & Hk & _ & Hg).
    { rewrite (dict_set_keys done tab_name empty_frame Hfresh), Hk0, <- app_assoc.
      exact Hnd. }
    exists d, s'.
    assert (Hall : scrape_all_tabs w s = (Ok d, s')).
    { unfold scrape_all_tabs. rewrite Htabs, scrape_tabs_app.
      unfold bind at 1. rewrite Hbefore. cbn [scrape_tabs Nat.add].
      unfold bind at 1. rewrite E2. exact E. }
    split; [exact Hall | split; [exact E | split]].
    + rewrite Hg.
      * apply dict_get_set_same.
      * apply NoDup_remove_2 in Hnd. intros Hin. apply Hnd.
        apply in_or_app. right. exact Hin.
    + rewrite Hk, (dict_set_keys done tab_name empty_frame Hfresh), Hk0, <- app_assoc.
      rewrite Htabs, map_app. reflexivity.
Qed.

Lemma activation_failure_is_local_witness :
  scrape_tab broken_world "overview" "Overview" true (session_with 0)
  = (Ok empty_frame, record_call (CallClickTab "overview") (session_with 0)).
Proof.
  apply (proj1 (activation_failure_is_local broken_world (session_with 0))
           "overview" "Overview" true PlaywrightTimeout).
  reflexivity.
Defined.

(** On a page where nothing responds, all nine tabs are still tried, each
    gets its empty entry, and no call other than the nine clicks is made. *)
Example scrape_all_tabs_broken_world :
  scrape_all_tabs broken_world (session_with 0)
  = (Ok (map (fun tab => (snd tab, empty_frame)) tabs),
     {| browser := Some handle; playwright := Some handle;
        total_rows_loaded := 0;
        history := map CallClickTab (rev (map fst tabs));
        log := [] |}).
Proof. reflexivity. Qed.

(** ** Export formatter *)

Lemma select_branch_not_plain_number (col_idx : nat) (text : string) :
  select_branch col_idx text <> BranchPlainNumber.
Proof.
  unfold select_branch.
  destruct (col_idx <=? 2); [discriminate|].
  destruct (PyStr.contains percent_sign text); [discriminate|].
  destruct (all_digits text); [|rewrite orb_false_r].
  - rewrite orb_true_r. discriminate.
  - destruct (PyStr.contains dollar_sign text); discriminate.
Qed.

Lemma currency_format_dollar (num : float) :
  exists rest, currency_format num = String dollar_sign rest.
Proof.
  unfold currency_format.
  destruct (PrimFloat.leb 1000000000 (PrimFloat.abs num)); [eexists; reflexivity|].
  destruct (PrimFloat.leb 1000000 (PrimFloat.abs num)); [eexists; reflexivity|].
  destruct (PrimFloat.leb 1000 (PrimFloat.abs num)); eexists; reflexivity.
Qed.

(** C5: a data cell beyond the first two columns whose text is
    "$1,234,567.00" gets the numeric value 1234567.0 and the millions
    display format, its magnitude being at least 1,000,000 and below
    1,000,000,000. *)
Theorem currency_millions_cell (str_of_float : float -> string) (col_idx : nat) (c : XlCell) :
  2 < col_idx ->
  cell_value c = VText "$1,234,567.00" ->
  PyFloat.parse "1234567.00" = Ok 1234567%float
  /\ format_data_cell PyFloat.parse str_of_float col_idx c
     = {| cell_value := VNumber 1234567%float;
          number_format := fmt_millions;
          alignment := Some HRight;
          bordered := true |}
  /\ PrimFloat.leb 1000000 (PrimFloat.abs 1234567) = true
  /\ PrimFloat.ltb (PrimFloat.abs 1234567) 1000000000 = true.
Proof.
  intros Hcol Hval. split; [reflexivity|]. split; [|split; reflexivity].
  apply Nat.leb_gt in Hcol.
  unfold format_data_cell, branch_of, with_border. cbn [cell_value].
  rewrite Hval. cbn [has_content str_of_value].
  unfold select_branch. rewrite Hcol.
  reflexivity.
Qed.

Lemma currency_millions_cell_witness :
  format_data_cell PyFloat.parse (fun _ => "") 3 (loaded_cell (Some "$1,234,567.00"))
  = {| cell_value := VNumber 1234567%float;
       number_format := fmt_millions;
       alignment := Some HRight;
       bordered := true |}.
Proof.
  apply (currency_millions_cell (fun _ => "") 3 (loaded_cell (Some "$1,234,567.00"))).
  - lia.
  - reflexivity.
Defined.

(** C9: whatever [float] and [str] do, no cell takes the plain-number
    branch; a cell beyond the first two columns whose text has no '%' and
    passes the all-digits test is handled by the currency branch, and when
    its text parses it gets a number format that starts with '$', with or
    without a '$' in the text. *)
Theorem plain_number_branch_unreachable
    (float_of_str : string -> result float) (str_of_float : float -> string) :
  (forall col_idx c, branch_of str_of_float col_idx c <> BranchPlainNumber)
  /\ (forall col_idx c text,
        2 < col_idx ->
        has_content (cell_value c) = true ->
        text = PyStr.strip (str_of_value str_of_float (cell_value c)) ->
        PyStr.contains percent_sign text = false ->
        all_digits text = true ->
        branch_of str_of_float col_idx c = BranchCurrency
        /\ format_data_cell float_of_str str_of_float col_idx c
           = format_currency float_of_str text (with_border c)
        /\ (forall num,
              float_of_str
                (PyStr.remove plus_sign
                   (PyStr.remove comma (PyStr.remove dollar_sign text))) = Ok num ->
              format_data_cell float_of_str str_of_float col_idx c
              = {| cell_value := VNumber num;
                   number_format := currency_format num;
                   alignment := Some HRight;
                   bordered := true |}
              /\ exists rest, currency_format num = String dollar_sign rest)).
Proof.
  split.
  - intros col_idx c. unfold branch_of.
    destruct (has_content (cell_value c)); [|discriminate].
    apply select_branch_not_plain_number.
  - intros col_idx c text Hcol Hcontent Htext Hpercent Hdigits.
    apply Nat.leb_gt in Hcol.
    assert (Hb : branch_of str_of_float col_idx c = BranchCurrency).
    { unfold branch_of. rewrite Hcontent, <- Htext.
      unfold select_branch. rewrite Hcol, Hpercent, Hdigits, orb_true_r. reflexivity. }
    assert (Hf : format_data_cell float_of_str str_of_float col_idx c
                 = format_currency float_of_str text (with_border c)).
    { unfold format_data_cell.
      change (branch_of str_of_float col_idx (with_border c))
        with (branch_of str_of_float col_idx c).
      rewrite Hb. cbn [with_border cell_value]. rewrite <- Htext. reflexivity. }
    split; [exact Hb | split; [exact Hf|]].
    intros num Hnum. split; [|apply currency_format_dollar].
    rewrite Hf. unfold format_currency. rewrite Hnum. reflexivity.
Qed.

Lemma plain_number_branch_unreachable_witness :
  branch_of (fun _ => "") 3 (loaded_cell (Some "1,234")) = BranchCurrency
  /\ format_data_cell PyFloat.parse (fun _ => "") 3 (loaded_cell (Some "1,234"))
     = {| cell_value := VNumber 1234%float;
          number_format := fmt_thousands;
          alignment := Some HRight;
          bordered := true |}.
Proof.
  destruct (proj2 (plain_number_branch_unreachable PyFloat.parse (fun _ => ""))
              3 (loaded_cell (Some "1,234")) "1,234")
    as (Hb & _ & Hnum); try reflexivity.
  - lia.
  - split; [exact Hb|].
    destruct (Hnum 1234%float) as [Hcell _]; [reflexivity | exact Hcell].
Defined.

(** A text without '$' that the currency branch cannot parse stays text,
    aligned left: the second attempt parses the same string. *)
Lemma remove_absent (c : ascii) (text : string) :
  PyStr.contains c text = false -> PyStr.remove c text = text.
Proof.
  unfold PyStr.contains. induction text as [|d r IH]; simpl; [reflexivity|].
  rewrite (Ascii.eqb_sym c d). destruct (Ascii.eqb d c); simpl; [discriminate|].
  intros H. rewrite IH by exact H. reflexivity.
Qed.

Lemma format_currency_without_dollar
    (float_of_str : string -> result float) (text : string) (c : XlCell) (e : exn) :
  PyStr.contains dollar_sign text = false ->
  float_of_str (PyStr.remove plus_sign (PyStr.remove comma text)) = Raise e ->
  format_currency float_of_str text c = with_alignment HLeft c.
Proof.
  intros Hd Hf. unfold format_currency, format_plain_number.
  rewrite (remove_absent dollar_sign text Hd), Hf. reflexivity.
Qed.

Example percentage_cell :
  format_data_cell PyFloat.parse (fun _ => "") 3 (loaded_cell (Some "12.5%"))
  = {| cell_value := VNumber 0.125%float;
       number_format := fmt_percent;
       alignment := Some HRight;
       bordered := true |}.
Proof. reflexivity. Qed.

Example unparsable_digits_cell :
  format_data_cell PyFloat.parse (fun _ => "") 3 (loaded_cell (Some "1.2.3"))
  = {| cell_value := VText "1.2.3";
       number_format := "General";
       alignment := Some HLeft;
       bordered := true |}.
Proof. reflexivity. Qed.

Example leading_columns_cell :
  format_data_cell PyFloat.parse (fun _ => "") 2 (loaded_cell (Some "$5"))
  = {| cell_value := VText "$5";
       number_format := "General";
       alignment := Some HLeft;
       bordered := true |}.
Proof. reflexivity. Qed.

(** * Further properties *)

(** ** The in-page routine and the frame built from it *)

Lemma first_cell_data_length (cell : DomCell) : length (first_cell_data cell) = 2.
Proof.
  unfold first_cell_data.
  destruct (symbol_text cell), (description_text cell); try reflexivity;
    destruct (2 <=? _); reflexivity.
Qed.

Lemma cells_data_length (index : nat) (cells : list DomCell) :
  length (cells_data index cells)
  = length cells + (if (index =? 0) && negb (is_nil cells) then 1 else 0).
Proof.
  revert index. induction cells as [|cell rest IH]; intros index; simpl.
  - rewrite andb_false_r. reflexivity.
  - rewrite length_app, IH. simpl. rewrite andb_true_r.
    destruct (index =? 0); [rewrite first_cell_data_length|]; simpl; lia.
Qed.

Lemma row_data_length (cells : list DomCell) :
  cells <> [] -> length (row_data cells) = S (length cells).
Proof.
  intros H. unfold row_data. rewrite cells_data_length.
  destruct cells; [congruence|]. simpl. lia.
Qed.

Lemma row_data_nil_iff (cells : list DomCell) :
  is_nil (row_data cells) = is_nil cells.
Proof.
  destruct cells as [|c cs]; [reflexivity|].
  assert (H := row_data_length (c :: cs)).
  destruct (row_data (c :: cs)); [simpl in H; specialize (H ltac:(discriminate)); discriminate|].
  reflexivity.
Qed.

Lemma filter_map_commute {A B : Type} (f : A -> B) (p : B -> bool) (l : list A) :
  filter p (map f l) = map f (filter (fun a => p (f a)) l).
Proof.
  induction l as [|a l IH]; simpl; [reflexivity|].
  destruct (p (f a)); simpl; rewrite IH; reflexivity.
Qed.

(** X1: the rows handed to Python are the data of the body rows that have
    cells, in order; each has one entry more than the row has cells (the
    first cell gives two), hence at least two entries. *)
Theorem page_table_rows (dom : DomTable) :
  let with_cells := filter (fun cells => negb (is_nil cells)) (body_rows dom) in
  rows (page_table dom) = map row_data with_cells
  /\ Forall (fun cells => length (row_data cells) = S (length cells)) with_cells
  /\ Forall (fun row => 2 <= length row) (rows (page_table dom)).
Proof.
  intros with_cells.
  assert (E : rows (page_table dom) = map row_data with_cells).
  { unfold page_table, with_cells. simpl. rewrite filter_map_commute.
    f_equal. apply filter_ext. intros cells. rewrite row_data_nil_iff. reflexivity. }
  assert (F : Forall (fun cells => length (row_data cells) = S (length cells)) with_cells).
  { apply Forall_forall. intros cells Hin. apply filter_In in Hin as [_ Hne].
    apply row_data_length. destruct cells; [discriminate | discriminate]. }
  split; [exact E | split; [exact F|]].
  rewrite E. apply Forall_map, Forall_forall. intros cells Hin.
  rewrite Forall_forall in F. rewrite (F cells Hin).
  apply filter_In in Hin as [_ Hne].
  destruct cells; [discriminate | simpl; lia].
Qed.

Lemma pad_rows_uniform (width : nat) (rs : list (list string)) :
  Forall (fun row => length row = width) rs -> map (pad_row width) rs = rs.
Proof.
  intros F. rewrite <- (map_id rs) at 2. apply map_ext_in. intros row Hin.
  rewrite Forall_forall in F. unfold pad_row.
  rewrite (F row Hin), Nat.sub_diag. apply app_nil_r.
Qed.

(** With rows of one width the frame is built from the rows as they are,
    under the header list fitted to that width. *)
Lemma extract_body_uniform (hs : list string) (rs : list (list string)) (width : nat) :
  adjust_headers hs <> [] -> rs <> [] ->
  Forall (fun row => length row = width) rs ->
  extract_body {| headers := hs; rows := rs |}
  = (let df := {| columns := fit_headers (adjust_headers hs) width;
                  data := map (map Some) rs |} in
     if has_column df "Ticker" then split_ticker_column df else Ok df).
Proof.
  intros Hh Hr F. unfold extract_body. cbn [headers rows].
  assert (Nh : is_nil (adjust_headers hs) = false)
    by (destruct (adjust_headers hs); [congruence | reflexivity]).
  assert (Nr : is_nil rs = false) by (destruct rs; [congruence | reflexivity]).
  rewrite Nh, Nr. cbn [negb andb].
  assert (Hne : map (@length string) rs <> [])
    by (destruct rs; [congruence | discriminate]).
  assert (Hm : list_max (map (@length string) rs) = width)
    by (apply list_max_const; [exact Hne | apply Forall_map, F]).
  assert (Hw : max_cols (adjust_headers hs) rs = width)
    by (unfold max_cols; destruct rs; [congruence | exact Hm]).
  unfold reconcile_columns. rewrite Hw, (pad_rows_uniform width rs F).
  unfold frame_of_rows.
  rewrite Hm, fit_headers_length, Nat.eqb_refl. cbn [rbind].
  assert (Hd : map (fun row => map Some row ++ repeat None (width - length row)) rs
               = map (map Some) rs).
  { apply map_ext_in. intros row Hin. rewrite Forall_forall in F.
    rewrite (F row Hin), Nat.sub_diag. apply app_nil_r. }
  rewrite Hd. reflexivity.
Qed.

Lemma notna_any_text_column (rs : list (list string)) (cols : list string) (pos : nat) :
  rs <> [] -> Forall (fun row => pos < length row) rs ->
  notna_any (series_at {| columns := cols; data := map (map Some) rs |} pos) = true.
Proof.
  intros Hr F. destruct rs as [|r0 rt]; [congruence|].
  inversion F as [|? ? H0 _]; subst.
  unfold series_at. simpl.
  rewrite (nth_indep _ None (Some "")) by (rewrite length_map; exact H0).
  rewrite (map_nth Some r0 "" pos). reflexivity.
Qed.

(** The cleaning step returns a frame of text untouched when its name
    column is there exactly once, or when it has no 'Ticker' column. *)
Lemma split_ticker_column_text_frame (cols : list string) (rs : list (list string)) :
  rs <> [] -> Forall (fun row => length row = length cols) rs ->
  PyStr.mem "Ticker" cols = false
  \/ (exists pos, positions "Company Name" cols 0 = [pos]) ->
  (let df := {| columns := cols; data := map (map Some) rs |} in
   if has_column df "Ticker" then split_ticker_column df else Ok df)
  = Ok {| columns := cols; data := map (map Some) rs |}.
Proof.
  intros Hr F H. cbv zeta.
  destruct (has_column {| columns := cols; data := map (map Some) rs |} "Ticker") eqn:Ht;
    [|reflexivity].
  destruct H as [H | [pos Hpos]]; [unfold has_column in Ht; simpl in Ht; congruence|].
  unfold split_ticker_column. rewrite Ht. cbn [negb].
  unfold locate. cbn [columns]. rewrite Hpos.
  rewrite notna_any_text_column; [reflexivity | exact Hr |].
  assert (Hin : In pos (positions "Company Name" cols 0)) by (rewrite Hpos; left; reflexivity).
  apply positions_bounds in Hin.
  eapply Forall_impl; [|exact F]. simpl. intros row ->. lia.
Qed.

Lemma extract_uniform_frame (hs : list string) (rs : list (list string)) :
  adjust_headers hs <> [] -> rs <> [] ->
  Forall (fun row => length row = length (adjust_headers hs)) rs ->
  PyStr.mem "Ticker" (adjust_headers hs) = false
  \/ (exists pos, positions "Company Name" (adjust_headers hs) 0 = [pos]) ->
  extract_table_data_fast (Ok {| headers := hs; rows := rs |})
  = {| columns := adjust_headers hs; data := map (map Some) rs |}.
Proof.
  intros Hh Hr F H. unfold extract_table_data_fast. cbn [rbind].
  rewrite (extract_body_uniform hs rs (length (adjust_headers hs)) Hh Hr F).
  assert (Hfit : fit_headers (adjust_headers hs) (length (adjust_headers hs))
                 = adjust_headers hs).
  { unfold fit_headers. rewrite Nat.ltb_irrefl. apply firstn_all. }
  rewrite Hfit, (split_ticker_column_text_frame _ rs Hr F H). reflexivity.
Qed.

(** X4: when every row is as wide as the adjusted header list, and the
    name column occurs exactly once in it or there is no 'Ticker' column,
    the frame returned is exactly the adjusted headers over the rows: no
    placeholder, no padding, and no cell rewritten by the cleaning step. *)
Theorem extract_uniform_rows (hs : list string) (rs : list (list string)) :
  adjust_headers hs <> [] -> rs <> [] ->
  Forall (fun row => length row = length (adjust_headers hs)) rs ->
  PyStr.mem "Ticker" (adjust_headers hs) = false
  \/ (exists pos, positions "Company Name" (adjust_headers hs) 0 = [pos]) ->
  extract_table_data_fast (Ok {| headers := hs; rows := rs |})
  = {| columns := adjust_headers hs; data := map (map Some) rs |}.
Proof. exact (extract_uniform_frame hs rs). Qed.

Lemma extract_uniform_rows_witness :
  extract_table_data_fast
    (Ok {| headers := ["Symbol"; "close"];
           rows := [["AAPL"; "Apple Inc."; "1.00"]; ["MSFT"; "Microsoft"; "2.00"]] |})
  = {| columns := ["Ticker"; "Company Name"; "close"];
       data := [[Some "AAPL"; Some "Apple Inc."; Some "1.00"];
                [Some "MSFT"; Some "Microsoft"; Some "2.00"]] |}.
Proof.
  apply (extract_uniform_rows
           ["Symbol"; "close"]
           [["AAPL"; "Apple Inc."; "1.00"]; ["MSFT"; "Microsoft"; "2.00"]]).
  - discriminate.
  - discriminate.
  - repeat constructor.
  - right. exists 1. reflexivity.
Defined.

Lemma filter_all {A : Type} (p : A -> bool) (l : list A) :
  Forall (fun a => p a = true) l -> filter p l = l.
Proof.
  induction 1 as [|a l Ha _ IH]; simpl; [reflexivity|].
  rewrite Ha, IH. reflexivity.
Qed.

(** the table read from a page whose header fields are all non-empty and
    whose body rows all have cells *)
Lemma page_table_plain (dom : DomTable) :
  Forall (fun field => field <> "") (header_fields dom) ->
  Forall (fun cells => cells <> []) (body_rows dom) ->
  page_table dom
  = {| headers := header_fields dom; rows := map row_data (body_rows dom) |}.
Proof.
  intros Hf Hc. unfold page_table. f_equal.
  - apply filter_all. eapply Forall_impl; [|exact Hf]. simpl.
    intros field Hne. apply String.eqb_neq in Hne. rewrite Hne. reflexivity.
  - rewrite filter_map_commute. f_equal. apply filter_all.
    eapply Forall_impl; [|exact Hc]. simpl.
    intros cells Hne. rewrite row_data_nil_iff. destruct cells; [congruence | reflexivity].
Qed.

Lemma positions_absent (label : string) (labels : list string) (from : nat) :
  ~ In label labels -> positions label labels from = [].
Proof.
  intros H. apply positions_nil_iff. unfold PyStr.mem.
  destruct (existsb (String.eqb label) labels) eqn:E; [|reflexivity].
  apply existsb_exists in E as [x [Hin Hx]]. apply String.eqb_eq in Hx. subst. tauto.
Qed.

(** X2: a page whose first header field is 'ticker' or 'symbol' in any
    case, whose other fields do not include 'Company Name', and whose rows
    all have one cell per field, gives the frame with columns 'Ticker',
    'Company Name' and the other fields over exactly the data read from the
    rows: the two entries of the first cell land under the two first
    columns and nothing is padded, renamed or split again. *)
Theorem ticker_table_frame (dom : DomTable) (first : string) (rest : list string) :
  header_fields dom = first :: rest ->
  Forall (fun field => field <> "") (first :: rest) ->
  PyStr.lower first = "ticker" \/ PyStr.lower first = "symbol" ->
  ~ In "Company Name" rest ->
  body_rows dom <> [] ->
  Forall (fun cells => length cells = S (length rest)) (body_rows dom) ->
  extract_table_data_fast (Ok (page_table dom))
  = {| columns := "Ticker" :: "Company Name" :: rest;
       data := map (map Some) (map row_data (body_rows dom)) |}.
Proof.
  intros Hfields Hne Hfirst Hname Hrows Hcells.
  assert (Hadj : adjust_headers (first :: rest) = "Ticker" :: "Company Name" :: rest).
  { unfold adjust_headers. destruct Hfirst as [-> | ->]; reflexivity. }
  rewrite page_table_plain.
  - rewrite Hfields, <- Hadj. apply extract_uniform_frame.
    + rewrite Hadj. discriminate.
    + destruct (body_rows dom); [congruence | discriminate].
    + rewrite Hadj. apply Forall_map. eapply Forall_impl; [|exact Hcells].
      simpl. intros cells Hlen. rewrite row_data_length, Hlen; [reflexivity|].
      destruct cells; [discriminate | discriminate].
    + right. exists 1. rewrite Hadj. cbn [positions].
      rewrite (positions_absent "Company Name" rest 2 Hname). reflexivity.
  - rewrite Hfields. exact Hne.
  - eapply Forall_impl; [|exact Hcells]. simpl. intros cells Hlen.
    destruct cells; [discriminate | discriminate].
Qed.

Lemma ticker_table_frame_witness :
  extract_table_data_fast
    (Ok (page_table
           {| header_fields := ["TICKER"; "close"];
              body_rows :=
                [[ {| symbol_text := Some " AAPL "; description_text := Some "Apple Inc.";
                      inner_text := "AAPL Apple Inc." |};
                   {| symbol_text := None; description_text := None;
                      inner_text := " 1.00 " |} ]] |}))
  = {| columns := ["Ticker"; "Company Name"; "close"];
       data := [[Some "AAPL"; Some "Apple Inc."; Some "1.00"]] |}.
Proof.
  apply (ticker_table_frame
           {| header_fields := ["TICKER"; "close"];
              body_rows :=
                [[ {| symbol_text := Some " AAPL "; description_text := Some "Apple Inc.";
                      inner_text := "AAPL Apple Inc." |};
                   {| symbol_text := None; description_text := None;
                      inner_text := " 1.00 " |} ]] |}
           "TICKER" ["close"]).
  - reflexivity.
  - repeat constructor; discriminate.
  - left. reflexivity.
  - simpl. intros [H|[]]. discriminate.
  - discriminate.
  - repeat constructor.
Defined.

(** X3: when the first header field is not 'ticker' or 'symbol' (and no
    field is 'Ticker'), the two entries of the first cell still make every
    row one wider than the header list: the frame gets one placeholder
    column Column_n after the n fields, so from the second column on each
    field labels the data of the cell before it. *)
Theorem plain_table_frame (dom : DomTable) (first : string) (rest : list string) :
  header_fields dom = first :: rest ->
  Forall (fun field => field <> "") (first :: rest) ->
  PyStr.lower first <> "ticker" -> PyStr.lower first <> "symbol" ->
  PyStr.mem "Ticker" (first :: rest) = false ->
  body_rows dom <> [] ->
  Forall (fun cells => length cells = S (length rest)) (body_rows dom) ->
  extract_table_data_fast (Ok (page_table dom))
  = {| columns := first :: rest ++ [column_placeholder (S (length rest))];
       data := map (map Some) (map row_data (body_rows dom)) |}.
Proof.
  intros Hfields Hne H1 H2 Hticker Hrows Hcells.
  assert (Hadj : adjust_headers (first :: rest) = first :: rest)
    by (apply adjust_headers_other; assumption).
  assert (Hr : map row_data (body_rows dom) <> [])
    by (destruct (body_rows dom); [congruence | discriminate]).
  assert (Hw : Forall (fun row => length row = S (S (length rest)))
                 (map row_data (body_rows dom))).
  { apply Forall_map. eapply Forall_impl; [|exact Hcells].
    simpl. intros cells Hlen. rewrite row_data_length, Hlen; [reflexivity|].
    destruct cells; [discriminate | discriminate]. }
  rewrite page_table_plain.
  - rewrite Hfields. unfold extract_table_data_fast. cbn [rbind].
    rewrite (extract_body_uniform _ _ (S (S (length rest)))); [|rewrite Hadj; discriminate| exact Hr | exact Hw].
    rewrite Hadj.
    assert (Hfit : fit_headers (first :: rest) (S (S (length rest)))
                   = first :: rest ++ [column_placeholder (S (length rest))]).
    { unfold fit_headers. cbn [length].
      rewrite (proj2 (Nat.ltb_lt _ _)) by lia.
      replace (S (S (length rest)) - S (length rest)) with 1 by lia.
      reflexivity. }
    rewrite Hfit.
    rewrite split_ticker_column_text_frame; [reflexivity | exact Hr | | ].
    + eapply Forall_impl; [|exact Hw]. simpl. intros row ->.
      rewrite length_app. simpl. lia.
    + left. unfold PyStr.mem in *. cbn [existsb] in *.
      apply orb_false_elim in Hticker as [Ha Hb].
      rewrite Ha, existsb_app, Hb. reflexivity.
  - rewrite Hfields. exact Hne.
  - eapply Forall_impl; [|exact Hcells]. simpl. intros cells Hlen.
    destruct cells; [discriminate | discriminate].
Qed.

Lemma plain_table_frame_witness :
  extract_table_data_fast
    (Ok (page_table
           {| header_fields := ["name"; "close"];
              body_rows :=
                [[ {| symbol_text := Some "AAPL"; description_text := Some "Apple Inc.";
                      inner_text := "AAPL Apple Inc." |};
                   {| symbol_text := None; description_text := None;
                      inner_text := "1.00" |} ]] |}))
  = {| columns := ["name"; "close"; "Column_2"];
       data := [[Some "AAPL"; Some "Apple Inc."; Some "1.00"]] |}.
Proof.
  apply (plain_table_frame
           {| header_fields := ["name"; "close"];
              body_rows :=
                [[ {| symbol_text := Some "AAPL"; description_text := Some "Apple Inc.";
                      inner_text := "AAPL Apple Inc." |};
                   {| symbol_text := None; description_text := None;
                      inner_text := "1.00" |} ]] |}
           "name" ["close"]).
  - reflexivity.
  - repeat constructor; discriminate.
  - discriminate.
  - discriminate.
  - reflexivity.
  - discriminate.
  - repeat constructor.
Defined.

(** X5: the extractor answers with the empty frame, never an error, when
    the in-page routine raises, when there is no header field, and when no
    row has a cell. *)
Theorem extract_table_empty_cases (e : exn) (dom : DomTable) :
  extract_table_data_fast (Raise e) = empty_frame
  /\ (forall rs, extract_table_data_fast (Ok {| headers := []; rows := rs |}) = empty_frame)
  /\ (forall hs, extract_table_data_fast (Ok {| headers := hs; rows := [] |}) = empty_frame)
  /\ (Forall (fun field => field = "") (header_fields dom)
      \/ Forall (fun cells => cells = []) (body_rows dom) ->
      extract_table_data_fast (Ok (page_table dom)) = empty_frame).
Proof.
  assert (Hrows : forall hs, extract_table_data_fast (Ok {| headers := hs; rows := [] |})
                             = empty_frame).
  { intros hs. unfold extract_table_data_fast, extract_body. cbn [rbind rows is_nil negb].
    rewrite andb_false_r. reflexivity. }
  split; [reflexivity | split; [reflexivity | split; [exact Hrows|]]].
  intros [H|H]; unfold page_table.
  - assert (E : filter (fun field => negb (String.eqb field "")) (header_fields dom) = []).
    { induction H as [|f fs Hf _ IH]; simpl; [reflexivity|]. subst f. exact IH. }
    rewrite E. reflexivity.
  - assert (E : filter (fun r => negb (is_nil r)) (map row_data (body_rows dom)) = []).
    { induction H as [|c cs Hc _ IH]; simpl; [reflexivity|]. subst c. exact IH. }
    rewrite E. apply Hrows.
Qed.

Lemma extract_table_empty_cases_witness :
  extract_table_data_fast
    (Ok (page_table {| header_fields := ["symbol"; "close"]; body_rows := [[]; []] |}))
  = empty_frame.
Proof.
  apply (extract_table_empty_cases ValueError
           {| header_fields := ["symbol"; "close"]; body_rows := [[]; []] |}).
  right. repeat constructor.
Defined.

(** ** The ticker pattern and the split of a one-line text *)

Lemma exists_char_app (p : ascii -> bool) (a b : string) :
  PyStr.exists_char p (a ++ b)%string = PyStr.exists_char p a || PyStr.exists_char p b.
Proof.
  induction a as [|c a IH]; simpl; [reflexivity|].
  rewrite IH, orb_assoc. reflexivity.
Qed.

Lemma span_app (p : ascii -> bool) (s a b : string) :
  PyStr.span p s = (a, b) -> s = (a ++ b)%string /\ PyStr.forall_chars p a = true.
Proof.
  revert a b. induction s as [|c r IH]; simpl; intros a b H.
  - injection H as <- <-. split; reflexivity.
  - destruct (p c) eqn:Ep.
    + destruct (PyStr.span p r) as [a' b'] eqn:E. injection H as <- <-.
      destruct (IH a' b' eq_refl) as [-> Ha]. simpl. rewrite Ep, Ha. split; reflexivity.
    + injection H as <- <-. split; reflexivity.
Qed.

Lemma span_no_match (p : ascii -> bool) (s : string) :
  PyStr.exists_char (fun c => negb (p c)) s = false -> PyStr.span p s = (s, EmptyString).
Proof.
  induction s as [|c r IH]; simpl; intros H; [reflexivity|].
  apply orb_false_elim in H as [Hc Hr]. apply negb_false_iff in Hc.
  rewrite Hc, (IH Hr). reflexivity.
Qed.

Lemma first_some_in {A B : Type} (f : A -> option B) (l : list A) (b : B) :
  TickerPattern.first_some f l = Some b -> exists a, In a l /\ f a = Some b.
Proof.
  induction l as [|a l IH]; simpl; [discriminate|].
  destruct (f a) as [b'|] eqn:E.
  - intros H. injection H as <-. exists a. auto.
  - intros H. destruct (IH H) as [a' [Hin Ha']]. exists a'. auto.
Qed.

Lemma after_space_in (ws rest cand : string) :
  In cand (TickerPattern.after_space ws rest) ->
  exists taken given, ws = (taken ++ given)%string /\ cand = (given ++ rest)%string.
Proof.
  revert cand. induction ws as [|c ws IH]; simpl; intros cand H.
  - destruct H as [<- | []]. exists EmptyString, EmptyString. split; reflexivity.
  - apply in_app_or in H as [H | [<- | []]].
    + destruct (IH cand H) as (taken & given & -> & ->).
      exists (String c taken), given. split; reflexivity.
    + exists EmptyString, (String c ws). split; reflexivity.
Qed.

Lemma dot_plus_eol_sound (s g : string) :
  TickerPattern.dot_plus_eol s = Some g ->
  g <> EmptyString
  /\ PyStr.forall_chars TickerPattern.not_newline g = true
  /\ exists tail, s = (g ++ tail)%string
                  /\ (tail = EmptyString \/ tail = String PyStr.newline EmptyString).
Proof.
  unfold TickerPattern.dot_plus_eol.
  destruct (PyStr.span TickerPattern.not_newline s) as [g' tail] eqn:E.
  apply span_app in E as [-> Hg].
  destruct g' as [|c g']; [discriminate|].
  destruct (String.eqb tail EmptyString || String.eqb tail (String PyStr.newline EmptyString))
    eqn:Et; [|discriminate].
  intros H. injection H as <-.
  split; [discriminate | split; [exact Hg|]].
  exists tail. split; [reflexivity|].
  apply orb_true_iff in Et as [Et|Et]; apply String.eqb_eq in Et; auto.
Qed.

Lemma forall_chars_app (p : ascii -> bool) (a b : string) :
  PyStr.forall_chars p (a ++ b)%string = PyStr.forall_chars p a && PyStr.forall_chars p b.
Proof.
  induction a as [|c a IH]; simpl; [reflexivity|].
  rewrite IH, andb_assoc. reflexivity.
Qed.

Lemma string_app_assoc (a b c : string) : ((a ++ b) ++ c = a ++ (b ++ c))%string.
Proof. induction a as [|x a IH]; simpl; [reflexivity | rewrite IH; reflexivity]. Qed.

(** What a match of [^([A-Z]{1,5})\s+(.+)$] says about the text: it is the
    first group, a non-empty run of white space, the second group, and
    possibly one final line feed. *)
Lemma re_match_sound (text g1 g2 : string) :
  TickerPattern.re_match text = Some (g1, g2) ->
  PyStr.forall_chars PyStr.is_upper_char g1 = true
  /\ 1 <= String.length g1 <= 5
  /\ g2 <> EmptyString
  /\ PyStr.forall_chars TickerPattern.not_newline g2 = true
  /\ exists sep tail,
       text = (g1 ++ sep ++ g2 ++ tail)%string
       /\ sep <> EmptyString
       /\ PyStr.forall_chars PyStr.is_space_char sep = true
       /\ (tail = EmptyString \/ tail = String PyStr.newline EmptyString).
Proof.
  unfold TickerPattern.re_match.
  destruct (PyStr.span PyStr.is_upper_char text) as [u r] eqn:Eu.
  apply span_app in Eu as [-> Hu].
  destruct ((1 <=? String.length u) && (String.length u <=? 5)) eqn:El; [|discriminate].
  apply andb_true_iff in El as [L1 L2]. apply Nat.leb_le in L1, L2.
  destruct (PyStr.span PyStr.is_space_char r) as [[|c0 ws] rest] eqn:Es; [discriminate|].
  apply span_app in Es as [-> Hs].
  destruct (TickerPattern.first_some TickerPattern.dot_plus_eol
              (TickerPattern.after_space ws rest)) as [g|] eqn:Ef; [|discriminate].
  intros H. injection H as <- <-.
  apply first_some_in in Ef as (cand & Hin & Hc).
  apply after_space_in in Hin as (taken & given & -> & ->).
  apply dot_plus_eol_sound in Hc as (Hne & Hnl & tail & Hcand & Htail).
  split; [exact Hu | split; [lia | split; [exact Hne | split; [exact Hnl|]]]].
  exists (String c0 taken), tail.
  split; [|split; [discriminate | split; [|exact Htail]]].
  - f_equal. cbn [append]. f_equal.
    rewrite string_app_assoc, Hcand. reflexivity.
  - cbn [PyStr.forall_chars append] in Hs |- *.
    rewrite forall_chars_app in Hs.
    apply andb_true_iff in Hs as [H0 Hs]. apply andb_true_iff in Hs as [Ht _].
    rewrite H0, Ht. reflexivity.
Qed.

Lemma split_without_separator (sep : ascii) (s : string) :
  PyStr.contains sep s = false -> PyStr.split sep s = [s].
Proof.
  unfold PyStr.contains. induction s as [|c r IH]; simpl; intros H; [reflexivity|].
  apply orb_false_elim in H as [Hc Hr].
  rewrite Ascii.eqb_sym, Hc, (IH Hr). reflexivity.
Qed.

Lemma lstrip_keeps_absent (p : ascii -> bool) (s : string) :
  PyStr.exists_char p s = false -> PyStr.exists_char p (PyStr.lstrip s) = false.
Proof.
  induction s as [|c r IH]; simpl; intros H; [reflexivity|].
  apply orb_false_elim in H as [Hc Hr].
  destruct (PyStr.is_space_char c); [apply IH, Hr | simpl; rewrite Hc, Hr; reflexivity].
Qed.

Lemma rstrip_keeps_absent (p : ascii -> bool) (s : string) :
  PyStr.exists_char p s = false -> PyStr.exists_char p (PyStr.rstrip s) = false.
Proof.
  induction s as [|c r IH]; simpl; intros H; [reflexivity|].
  apply orb_false_elim in H as [Hc Hr]. specialize (IH Hr).
  destruct (PyStr.rstrip r) as [|d r'].
  - destruct (PyStr.is_space_char c); simpl; [reflexivity | rewrite Hc; reflexivity].
  - simpl in *. rewrite Hc, IH. reflexivity.
Qed.

Lemma strip_keeps_absent (p : ascii -> bool) (s : string) :
  PyStr.exists_char p s = false -> PyStr.exists_char p (PyStr.strip s) = false.
Proof.
  intros H. apply lstrip_keeps_absent, rstrip_keeps_absent, H.
Qed.

(** X6: a one-line ticker text is split without loss.  Either the name is
    empty and the symbol is the whole stripped text, or the stripped text
    is the symbol (one to five capitals), some white space, and the name. *)
Theorem extract_ticker_parts_lossless (t : string) :
  PyStr.contains PyStr.newline t = false ->
  let symbol := fst (extract_ticker_parts (Some t)) in
  let name := snd (extract_ticker_parts (Some t)) in
  (name = "" /\ symbol = PyStr.strip t)
  \/ (exists sep,
        PyStr.strip t = (symbol ++ sep ++ name)%string
        /\ sep <> ""
        /\ PyStr.forall_chars PyStr.is_space_char sep = true
        /\ PyStr.forall_chars PyStr.is_upper_char symbol = true
        /\ 1 <= String.length symbol <= 5
        /\ name <> "").
Proof.
  intros Hnl. cbv zeta. unfold extract_ticker_parts.
  destruct (String.eqb t "") eqn:Et.
  { apply String.eqb_eq in Et. subst t. left. split; reflexivity. }
  rewrite (split_without_separator _ _ Hnl). cbn [length Nat.leb].
  destruct ((String.length (PyStr.strip t) <=? 5) && PyStr.isupper (PyStr.strip t)).
  { left. split; reflexivity. }
  destruct (TickerPattern.re_match (PyStr.strip t)) as [[g1 g2]|] eqn:Em.
  2:{ left. split; reflexivity. }
  right. cbn [fst snd].
  apply re_match_sound in Em as (Hu & Hl & Hne & _ & sep & tail & Htext & Hsep & Hspace & Htail).
  exists sep.
  assert (tail = EmptyString) as ->.
  { destruct Htail as [-> | ->]; [reflexivity|]. exfalso.
    assert (Hs := strip_keeps_absent _ _ Hnl). rewrite Htext in Hs.
    unfold PyStr.contains in Hs. rewrite !exists_char_app in Hs.
    change (PyStr.exists_char (Ascii.eqb PyStr.newline) (String PyStr.newline ""))
      with true in Hs.
    rewrite !orb_true_r in Hs. discriminate. }
  assert (Happ : forall a : string, (a ++ "")%string = a).
  { induction a as [|c a IH]; simpl; [reflexivity | rewrite IH; reflexivity]. }
  rewrite Happ in Htext.
  split; [exact Htext | split; [exact Hsep | split; [exact Hspace |
    split; [exact Hu | split; [exact Hl | exact Hne]]]]].
Qed.

Lemma extract_ticker_parts_lossless_witness :
  exists sep,
    PyStr.strip " NVDA  NVIDIA Corp " = ("NVDA" ++ sep ++ "NVIDIA Corp")%string
    /\ sep <> "".
Proof.
  destruct (extract_ticker_parts_lossless " NVDA  NVIDIA Corp " eq_refl)
    as [[H _] | (sep & H1 & H2 & _)].
  - discriminate H.
  - exists sep. split; [exact H1 | exact H2].
Defined.

(** ** What scraping does to the session *)

Lemma scraping_step_refl (s : Scraper) : scraping_step 0 s s.
Proof.
  repeat split; try lia. exists []. repeat split. simpl. lia.
Qed.

Lemma scraping_step_trans (b1 b2 : nat) (s1 s2 s3 : Scraper) :
  scraping_step b1 s1 s2 -> scraping_step b2 s2 s3 -> scraping_step (b1 + b2) s1 s3.
Proof.
  intros (Hb1 & Hp1 & Hl1 & Ht1 & c1 & Hh1 & Hn1 & Hs1)
         (Hb2 & Hp2 & Hl2 & Ht2 & c2 & Hh2 & Hn2 & Hs2).
  split; [congruence | split; [congruence | split; [congruence | split; [lia|]]]].
  exists (c2 ++ c1). split; [|split].
  - rewrite Hh2, Hh1, app_assoc. reflexivity.
  - rewrite length_app. lia.
  - rewrite forallb_app, Hs1, Hs2. reflexivity.
Qed.

Lemma scraping_step_weaken (b b' : nat) (s s' : Scraper) :
  b <= b' -> scraping_step b s s' -> scraping_step b' s s'.
Proof.
  intros Hle (Hb & Hp & Hl & Ht & c & Hh & Hn & Hs).
  split; [exact Hb | split; [exact Hp | split; [exact Hl | split; [exact Ht|]]]].
  exists c. split; [exact Hh | split; [lia | exact Hs]].
Qed.

Lemma scraping_step_call (c : Call) (s : Scraper) :
  scraping_call c = true -> scraping_step 1 s (record_call c s).
Proof.
  intros Hc. split; [reflexivity | split; [reflexivity | split; [reflexivity | split; [simpl; lia|]]]].
  exists [c]. split; [reflexivity | split; [simpl; lia | simpl; rewrite Hc; reflexivity]].
Qed.

Lemma scraping_step_total (n : nat) (s : Scraper) :
  total_rows_loaded s <= n -> scraping_step 0 s (set_total_rows_loaded n s).
Proof.
  intros Hn. split; [reflexivity | split; [reflexivity | split; [reflexivity | split; [exact Hn|]]]].
  exists []. split; [reflexivity | split; [simpl; lia | reflexivity]].
Qed.

Lemma load_more_attempt_step (w : World) (s s' : Scraper) (r : result bool) :
  load_more_attempt w s = (r, s') -> scraping_step 3 s s'.
Proof.
  unfold load_more_attempt, bind, call, ret.
  assert (S1 := scraping_step_call CallIsVisible s eq_refl).
  assert (S2 := scraping_step_call CallScrollIntoView (record_call CallIsVisible s) eq_refl).
  assert (S3 := scraping_step_call CallClickLoadMore
                  (record_call CallScrollIntoView (record_call CallIsVisible s)) eq_refl).
  assert (S12 := scraping_step_trans _ _ _ _ _ S1 S2).
  assert (S123 := scraping_step_trans _ _ _ _ _ S12 S3).
  destruct (load_more_visible w (history s)) as [[|]|e]; simpl.
  - destruct (load_more_scroll w _) as [[]|e]; simpl.
    + destruct (load_more_click w _) as [[]|e]; simpl;
        intros H; injection H as _ <-; exact S123.
    + intros H; injection H as _ <-.
      apply (scraping_step_weaken 2); [lia | exact S12].
  - intros H; injection H as _ <-. apply (scraping_step_weaken 1); [lia | exact S1].
  - intros H; injection H as _ <-. apply (scraping_step_weaken 1); [lia | exact S1].
Qed.

Lemma iteration_step (w : World) (clicks failures : nat) (s s' : Scraper) (step : LoopStep) :
  iteration w clicks failures s = (step, s') -> scraping_step 3 s s'.
Proof.
  unfold iteration.
  destruct (load_more_attempt w s) as [r s1] eqn:E.
  apply load_more_attempt_step in E.
  destruct r as [[|]|[]]; try (intros H; injection H as _ <-; exact E).
  destruct (2 <=? failures + 1); intros H; injection H as _ <-; exact E.
Qed.

(** the loop makes at most three calls per iteration *)
Lemma load_more_loop_step (w : World) (clicks failures : nat) (s : Scraper) :
  clicks <= max_clicks -> failures <= 1 ->
  scraping_step (3 * (2 * (max_clicks - clicks) - failures)) s
    (snd (load_more_loop w clicks failures s)).
Proof.
  funelim (load_more_loop w clicks failures s); intros Hc Hf;
    try match goal with
        | Hi : iteration _ _ _ _ = _ |- _ =>
            pose proof (iteration_step _ _ _ _ _ _ Hi) as Hcalls;
            destruct (iteration_spec _ _ _ _ _ _ Hi) as (_ & _ & Hk)
        end;
    try match goal with
        | Hb : (_ <? _) = true |- _ => pose proof (proj1 (Nat.ltb_lt _ _) Hb) as Hlt'
        end;
    cbn [fst snd].
  - eapply scraping_step_weaken; [|apply scraping_step_refl]. lia.
  - match goal with
    | IH : _ -> _ -> _ |- _ =>
        assert (Hrest := IH ltac:(unfold max_clicks in *; lia) ltac:(lia))
    end.
    eapply scraping_step_weaken; [|eapply scraping_step_trans; [exact Hcalls | exact Hrest]].
    unfold max_clicks in *. lia.
  - eapply scraping_step_weaken; [|exact Hcalls].
    unfold max_clicks in *. lia.
Qed.

Lemma paginate_step (w : World) (s : Scraper) :
  scraping_step 901 s (snd (paginate w s)).
Proof.
  rewrite paginate_value. cbn [snd].
  assert (L := load_more_loop_step w 0 0 s ltac:(unfold max_clicks; lia) ltac:(lia)).
  set (s_end := snd (load_more_loop w 0 0 s)) in *.
  assert (C := scraping_step_call CallRowCount s_end eq_refl).
  assert (T := scraping_step_total
                 (Nat.max (total_rows_loaded s_end) (row_count_at w (history s_end)))
                 (record_call CallRowCount s_end) ltac:(simpl; lia)).
  eapply scraping_step_weaken;
    [|eapply scraping_step_trans; [eapply scraping_step_trans; [exact L | exact C] | exact T]].
  unfold max_clicks. lia.
Qed.

Lemma load_all_rows_step (w : World) (is_first_tab : bool) (s : Scraper) :
  scraping_step 902 s (snd (load_all_rows w is_first_tab s)).
Proof.
  rewrite load_all_rows_value. destruct is_first_tab.
  - eapply scraping_step_weaken; [|apply paginate_step]. lia.
  - assert (C := scraping_step_call CallRowCount s eq_refl).
    destruct (rows_already_loaded _ _); cbn [snd].
    + eapply scraping_step_weaken; [|exact C]. lia.
    + eapply scraping_step_weaken;
        [|eapply scraping_step_trans; [exact C | apply paginate_step]].
      lia.
Qed.

Lemma scrape_tab_step (w : World) (tab_id tab_name : string) (is_first_tab : bool)
    (s : Scraper) :
  scraping_step 904 s (snd (scrape_tab w tab_id tab_name is_first_tab s)).
Proof.
  unfold scrape_tab. unfold bind at 1. rewrite click_tab_value.
  assert (C := scraping_step_call (CallClickTab tab_id) s eq_refl).
  destruct (click_tab_button w (history s) tab_id) as [[]|e]; cbn [negb].
  - assert (L := load_all_rows_step w is_first_tab (record_call (CallClickTab tab_id) s)).
    destruct (load_all_rows_returns w is_first_tab (record_call (CallClickTab tab_id) s))
      as (c & s1 & E & _).
    unfold bind at 1. rewrite E in *. cbn [snd] in L.
    unfold bind, extract_table, ret. cbn [snd].
    assert (V := scraping_step_call CallEvaluate s1 eq_refl).
    eapply scraping_step_weaken;
      [|eapply scraping_step_trans; [eapply scraping_step_trans; [exact C | exact L] | exact V]].
    lia.
  - cbn [snd ret]. eapply scraping_step_weaken; [|exact C]. lia.
Qed.

Lemma scrape_tabs_step (w : World) (remaining : list (string * string)) :
  forall (idx : nat) (acc : Dict DataFrame) (s : Scraper),
    scraping_step (904 * length remaining) s (snd (scrape_tabs w remaining idx acc s)).
Proof.
  induction remaining as [|[tab_id tab_name] rest IH]; intros idx acc s.
  - simpl. apply scraping_step_refl.
  - cbn [scrape_tabs]. unfold bind.
    assert (T := scrape_tab_step w tab_id tab_name (idx =? 0) s).
    destruct (scrape_tab_returns w tab_id tab_name (idx =? 0) s) as (df & s1 & E & _).
    rewrite E in *. cbn [snd] in T.
    eapply scraping_step_weaken;
      [|eapply scraping_step_trans; [exact T | apply IH]].
    cbn [length]. lia.
Qed.

(** X7: scraping all tabs never touches the browser and engine handles or
    the teardown log, and never lowers the cumulative row maximum. *)
Theorem scrape_all_tabs_keeps_session (w : World) (s : Scraper) :
  let s' := snd (scrape_all_tabs w s) in
  browser s' = browser s
  /\ playwright s' = playwright s
  /\ log s' = log s
  /\ total_rows_loaded s <= total_rows_loaded s'.
Proof.
  destruct (scrape_tabs_step w tabs 0 [] s) as (Hb & Hp & Hl & Ht & _).
  repeat split; assumption.
Qed.

(** X8: scraping all tabs makes at most 9 * 904 = 8136 calls to the browser
    (904 per tab: the tab click, at most two row counts, at most 300 iterations of
    three calls, and the evaluation), and none of them is a teardown
    call. *)
Theorem scrape_all_tabs_call_budget (w : World) (s : Scraper) :
  exists calls,
    history (snd (scrape_all_tabs w s)) = calls ++ history s
    /\ length calls <= 904 * 9
    /\ forallb scraping_call calls = true.
Proof.
  destruct (scrape_tabs_step w tabs 0 [] s) as (_ & _ & _ & _ & calls & Hh & Hn & Hs).
  exists calls. split; [exact Hh | split; [exact Hn | exact Hs]].
Qed.

(** ** Teardown and the whole run *)

Lemma close_effect (w : World) (s : Scraper) :
  exists s',
    close w s = (Ok tt, s')
    /\ browser s' = browser s
    /\ playwright s' = playwright s
    /\ total_rows_loaded s' = total_rows_loaded s
    /\ history s' = teardown_calls s ++ history s.
Proof.
  destruct s as [b p total h l].
  unfold close, bind, try_except, get, call, print, ret, record_call, record_log,
    teardown_calls.
  simpl.
  destruct b as [hb|], p as [hp|]; simpl;
    repeat match goal with
           | |- context [browser_close w ?x] => destruct (browser_close w x) as [[]|?]; simpl
           | |- context [playwright_stop w ?x] => destruct (playwright_stop w x) as [[]|?]; simpl
           end;
    eexists; repeat split.
Qed.

(** X14: [close] leaves the handles in place, so a second [close] makes the
    same teardown calls again; it still returns normally, whatever the
    browser answers. *)
Theorem close_twice_repeats_teardown (w : World) (s : Scraper) :
  exists s1 s2,
    close w s = (Ok tt, s1)
    /\ close w s1 = (Ok tt, s2)
    /\ browser s2 = browser s
    /\ playwright s2 = playwright s
    /\ history s2 = teardown_calls s ++ teardown_calls s ++ history s.
Proof.
  destruct (close_effect w s) as (s1 & E1 & Hb1 & Hp1 & _ & Hh1).
  destruct (close_effect w s1) as (s2 & E2 & Hb2 & Hp2 & _ & Hh2).
  exists s1, s2. split; [exact E1 | split; [exact E2|]].
  split; [congruence | split; [congruence|]].
  rewrite Hh2, Hh1. unfold teardown_calls. rewrite Hb1, Hp1. reflexivity.
Qed.

Lemma scrape_all_tabs_effect (w : World) (s : Scraper) :
  exists all_data s',
    scrape_all_tabs w s = (Ok all_data, s')
    /\ map fst all_data = map snd tabs
    /\ scraping_step (904 * 9) s s'.
Proof.
  destruct (scrape_tabs_returns w tabs 0 [] s tab_names_distinct) as (d & s' & E & Hk & _).
  assert (T := scrape_tabs_step w tabs 0 [] s).
  unfold scrape_all_tabs. rewrite E in *.
  exists d, s'. split; [reflexivity | split; [exact Hk | exact T]].
Qed.

(** the [try] body of [run]: which handles it leaves set, and which calls
    it has made *)
Lemma run_body_effect (w : World) (l : Launch) (s : Scraper) :
  exists r s1,
    (start l ;;;
     load_page l ;;;
     data <- scrape_all_tabs w ;;
     save_to_excel l data) s = (r, s1)
    /\ playwright s1 = (if is_ok (start_playwright l) then Some handle else playwright s)
    /\ browser s1 = (if is_ok (start_playwright l) && is_ok (launch_browser l)
                     then Some handle else browser s)
    /\ exists calls,
         history s1 = calls ++ history s /\ forallb scraping_call calls = true.
Proof.
  assert (Hnone : forall s0 : Scraper, exists calls,
             history s0 = calls ++ history s0 /\ forallb scraping_call calls = true)
    by (intros s0; exists []; split; reflexivity).
  unfold start, load_page, save_to_excel, bind, outcome, assign.
  destruct (start_playwright l) as [[]|e1]; cbn [is_ok andb];
    [|eexists _, _; split; [reflexivity | split; [reflexivity | split; [reflexivity | apply Hnone]]]].
  destruct (launch_browser l) as [[]|e2]; cbn [is_ok];
    [|eexists _, _; split; [reflexivity | split; [reflexivity | split; [reflexivity | apply (Hnone (set_playwright _ s))]]]].
  set (s0 := set_browser (Some handle) (set_playwright (Some handle) s)).
  assert (H0 : exists calls, history s0 = calls ++ history s /\ forallb scraping_call calls = true)
    by (exists []; split; reflexivity).
  destruct (new_context l) as [[]|e3];
    [|eexists _, _; split; [reflexivity | split; [reflexivity | split; [reflexivity | exact H0]]]].
  destruct (new_page l) as [[]|e4];
    [|eexists _, _; split; [reflexivity | split; [reflexivity | split; [reflexivity | exact H0]]]].
  destruct (goto_page l) as [[]|e5];
    [|eexists _, _; split; [reflexivity | split; [reflexivity | split; [reflexivity | exact H0]]]].
  destruct (scrape_all_tabs_effect w s0) as (d & s2 & E & _ & Hb & Hp & _ & _ & calls & Hh & _ & Hs).
  rewrite E.
  eexists _, s2. split; [reflexivity|].
  split; [rewrite Hp; reflexivity | split; [rewrite Hb; reflexivity|]].
  exists calls. split; [exact Hh | exact Hs].
Qed.

(** X13: [run] never raises, whichever step fails.  When it returns, the
    engine handle is set exactly when the engine started and the browser
    handle exactly when the browser was launched, and the last calls made
    are the teardown calls for exactly these handles; everything before
    them is scraping. *)
Theorem run_tears_down (w : World) (l : Launch) (s : Scraper) :
  exists s',
    run w l s = (Ok tt, s')
    /\ playwright s' = (if is_ok (start_playwright l) then Some handle else playwright s)
    /\ browser s' = (if is_ok (start_playwright l) && is_ok (launch_browser l)
                     then Some handle else browser s)
    /\ exists calls,
         history s' = teardown_calls s' ++ calls ++ history s
         /\ forallb scraping_call calls = true.
Proof.
  destruct (run_body_effect w l s) as (r & s1 & E & Hp & Hb & calls & Hh & Hs).
  destruct (close_effect w s1) as (s' & Ec & Hb' & Hp' & _ & Hh').
  exists s'. unfold run, try_finally, try_except. rewrite E.
  split.
  - destruct r as [[]|e]; unfold ret; rewrite Ec; reflexivity.
  - split; [rewrite Hp'; exact Hp | split; [rewrite Hb'; exact Hb|]].
    exists calls. split; [|exact Hs].
    rewrite Hh', Hh. unfold teardown_calls. rewrite Hb', Hp'. reflexivity.
Qed.

(** A run in which the browser cannot be launched stops the engine it
    started and closes nothing else. *)
Example run_launch_failure :
  let l := {| start_playwright := Ok tt; launch_browser := Raise PlaywrightError;
              new_context := Ok tt; new_page := Ok tt; goto_page := Ok tt;
              write_workbook := fun _ => Ok tt |} in
  run broken_world l fresh_scraper
  = (Ok tt,
     {| browser := None; playwright := Some handle; total_rows_loaded := 0;
        history := [CallPlaywrightStop];
        log := [LogErrorStoppingPlaywright PlaywrightError] |}).
Proof. reflexivity. Qed.

(** ** The data-cell pass *)

Lemma format_data_cell_cases
    (float_of_str : string -> result float) (str_of_float : float -> string)
    (col_idx : nat) (c : XlCell) :
  let c' := format_data_cell float_of_str str_of_float col_idx c in
  bordered c' = true
  /\ ((cell_value c' = cell_value c /\ number_format c' = number_format c)
      \/ (exists num, cell_value c' = VNumber num /\ alignment c' = Some HRight
                      /\ 2 < col_idx /\ has_content (cell_value c) = true))
  /\ (has_content (cell_value c) = false -> c' = with_border c)
  /\ (has_content (cell_value c) = true -> col_idx <= 2 ->
      c' = with_alignment HLeft (with_border c)).
Proof.
  cbv zeta. unfold format_data_cell.
  change (branch_of str_of_float col_idx (with_border c))
    with (branch_of str_of_float col_idx c).
  unfold branch_of.
  destruct (has_content (cell_value c)) eqn:Hc.
  2:{ split; [reflexivity | split; [left; split; reflexivity|]].
      split; [reflexivity | discriminate]. }
  unfold select_branch.
  destruct (col_idx <=? 2) eqn:Hcol.
  { apply Nat.leb_le in Hcol.
    split; [reflexivity | split; [left; split; reflexivity|]].
    split; [discriminate | reflexivity]. }
  apply Nat.leb_gt in Hcol.
  set (text := PyStr.strip (str_of_value str_of_float (cell_value (with_border c)))).
  destruct (PyStr.contains percent_sign _).
  { unfold format_percentage. destruct (float_of_str _) as [num|e].
    - split; [reflexivity | split; [right; exists (PrimFloat.div num 100); auto|]].
      split; [discriminate | intros _ Hle; lia].
    - split; [reflexivity | split; [left; split; reflexivity|]].
      split; [discriminate | intros _ Hle; lia]. }
  destruct (PyStr.contains dollar_sign _ || all_digits _).
  { unfold format_currency, format_plain_number.
    destruct (float_of_str (PyStr.remove plus_sign (PyStr.remove comma
                (PyStr.remove dollar_sign text)))) as [num|e].
    - split; [reflexivity | split; [right; exists num; auto|]].
      split; [discriminate | intros _ Hle; lia].
    - destruct (float_of_str _) as [num|e'].
      + split; [reflexivity | split; [right; exists num; auto|]].
        split; [discriminate | intros _ Hle; lia].
      + split; [reflexivity | split; [left; split; reflexivity|]].
        split; [discriminate | intros _ Hle; lia]. }
  destruct (all_digits _).
  { unfold format_plain_number. destruct (float_of_str _) as [num|e].
    - split; [reflexivity | split; [right; exists num; auto|]].
      split; [discriminate | intros _ Hle; lia].
    - split; [reflexivity | split; [left; split; reflexivity|]].
      split; [discriminate | intros _ Hle; lia]. }
  split; [reflexivity | split; [left; split; reflexivity|]].
  split; [discriminate | intros _ Hle; lia].
Qed.

(** X9: what the pass does to a data cell, whatever [float] and [str] do.
    Every cell gets its border.  A cell keeps its value and its number
    format, or its value becomes a number and it is right-aligned, which
    happens only beyond the second column.  A blank cell gets nothing but
    the border, and a cell of the first two columns is only left-aligned. *)
Theorem format_data_cell_effect
    (float_of_str : string -> result float) (str_of_float : float -> string)
    (col_idx : nat) (c : XlCell) :
  let c' := format_data_cell float_of_str str_of_float col_idx c in
  bordered c' = true
  /\ ((cell_value c' = cell_value c /\ number_format c' = number_format c)
      \/ (exists num, cell_value c' = VNumber num /\ alignment c' = Some HRight
                      /\ 2 < col_idx /\ has_content (cell_value c) = true))
  /\ (has_content (cell_value c) = false -> c' = with_border c)
  /\ (has_content (cell_value c) = true -> col_idx <= 2 ->
      c' = with_alignment HLeft (with_border c)).
Proof. exact (format_data_cell_cases float_of_str str_of_float col_idx c). Qed.

Lemma format_data_cell_effect_witness :
  format_data_cell PyFloat.parse (fun _ => "") 1 (loaded_cell (Some "2330"))
  = {| cell_value := VText "2330"; number_format := "General";
       alignment := Some HLeft; bordered := true |}.
Proof.
  destruct (format_data_cell_effect PyFloat.parse (fun _ => "") 1 (loaded_cell (Some "2330")))
    as (_ & _ & _ & H).
  rewrite H; [reflexivity | reflexivity | lia].
Defined.

(** *** [float] accepts no text with a '$' *)

Lemma not_dollar (p : ascii -> bool) (c : ascii) :
  p dollar_sign = false -> p c = true -> Ascii.eqb dollar_sign c = false.
Proof.
  intros Hp Hc. destruct (Ascii.eqb dollar_sign c) eqn:E; [|reflexivity].
  apply Ascii.eqb_eq in E. subst c. congruence.
Qed.

Lemma lstrip_dollar (s : string) :
  PyStr.contains dollar_sign (PyStr.lstrip s) = PyStr.contains dollar_sign s.
Proof.
  unfold PyStr.contains. induction s as [|c r IH]; [reflexivity|].
  cbn [PyStr.lstrip]. destruct (PyStr.is_space_char c) eqn:E; [|reflexivity].
  cbn [PyStr.exists_char].
  rewrite IH, (not_dollar PyStr.is_space_char c eq_refl E). reflexivity.
Qed.

Lemma rstrip_dollar (s : string) :
  PyStr.contains dollar_sign (PyStr.rstrip s) = PyStr.contains dollar_sign s.
Proof.
  unfold PyStr.contains. induction s as [|c r IH]; [reflexivity|].
  cbn [PyStr.rstrip PyStr.exists_char]. rewrite <- IH.
  destruct (PyStr.rstrip r) as [|d r'].
  - destruct (PyStr.is_space_char c) eqn:E; cbn [PyStr.exists_char].
    + rewrite (not_dollar PyStr.is_space_char c eq_refl E). reflexivity.
    + reflexivity.
  - reflexivity.
Qed.

Lemma strip_dollar (s : string) :
  PyStr.contains dollar_sign (PyStr.strip s) = PyStr.contains dollar_sign s.
Proof. unfold PyStr.strip. rewrite lstrip_dollar, rstrip_dollar. reflexivity. Qed.

Lemma lower_dollar (s : string) :
  PyStr.contains dollar_sign (PyStr.lower s) = PyStr.contains dollar_sign s.
Proof.
  unfold PyStr.contains. induction s as [|c r IH]; simpl; [reflexivity|].
  rewrite IH. f_equal.
  destruct c as [[] [] [] [] [] [] [] []]; reflexivity.
Qed.

Lemma sign_dollar (s body : string) (neg : bool) :
  PyFloat.sign s = (neg, body) ->
  PyStr.contains dollar_sign s = PyStr.contains dollar_sign body.
Proof.
  unfold PyFloat.sign, PyStr.contains. destruct s as [|c r].
  - intros H; injection H as _ <-. reflexivity.
  - destruct (PyFloat.is_char 45 c) eqn:E1.
    + intros H; injection H as _ <-. cbn [PyStr.exists_char].
      rewrite (not_dollar (PyFloat.is_char 45) c eq_refl E1). reflexivity.
    + destruct (PyFloat.is_char 43 c) eqn:E2; intros H; injection H as _ <-.
      * cbn [PyStr.exists_char].
        rewrite (not_dollar (PyFloat.is_char 43) c eq_refl E2). reflexivity.
      * reflexivity.
Qed.

Lemma digits_tail_dollar (s : string) :
  (forall acc count m k rest,
      PyFloat.digits_tail s acc count = (m, k, rest) ->
      PyStr.contains dollar_sign s = PyStr.contains dollar_sign rest)
  /\ (forall c acc count m k rest,
        PyFloat.digits_tail (String c s) acc count = (m, k, rest) ->
        PyStr.contains dollar_sign (String c s) = PyStr.contains dollar_sign rest).
Proof.
  unfold PyStr.contains.
  induction s as [|d r [IH1 IH2]].
  - split.
    + intros acc count m k rest H. cbn [PyFloat.digits_tail] in H.
      injection H as _ _ <-. reflexivity.
    + intros c acc count m k rest. cbn [PyFloat.digits_tail].
      destruct (PyStr.is_digit_char c) eqn:Ed.
      * intros H. injection H as _ _ <-. cbn [PyStr.exists_char].
        rewrite (not_dollar PyStr.is_digit_char c eq_refl Ed). reflexivity.
      * destruct (Ascii.eqb c PyFloat.underscore); intros H; injection H as _ _ <-; reflexivity.
  - split; [exact (IH2 d)|].
    intros c acc count m k rest. cbn [PyFloat.digits_tail].
    destruct (PyStr.is_digit_char c) eqn:Ed.
    + intros H. apply (IH2 d) in H. cbn [PyStr.exists_char] in *.
      rewrite (not_dollar PyStr.is_digit_char c eq_refl Ed). exact H.
    + destruct (Ascii.eqb c PyFloat.underscore) eqn:Eu.
      * destruct (PyStr.is_digit_char d) eqn:Ed'.
        -- intros H. apply IH1 in H. cbn [PyStr.exists_char].
           apply Ascii.eqb_eq in Eu. subst c.
           rewrite (not_dollar PyStr.is_digit_char d eq_refl Ed'). exact H.
        -- intros H. injection H as _ _ <-. reflexivity.
      * intros H. injection H as _ _ <-. reflexivity.
Qed.

Lemma digitpart_dollar (s rest : string) (acc m : Z) (k : nat) :
  PyFloat.digitpart s acc = Some (m, k, rest) ->
  PyStr.contains dollar_sign s = PyStr.contains dollar_sign rest.
Proof.
  unfold PyFloat.digitpart. destruct s as [|c r]; [discriminate|].
  destruct (PyStr.is_digit_char c) eqn:Ed; [|discriminate].
  intros H. injection H as H.
  apply (proj1 (digits_tail_dollar r)) in H.
  unfold PyStr.contains in *. cbn [PyStr.exists_char].
  rewrite (not_dollar PyStr.is_digit_char c eq_refl Ed). exact H.
Qed.

Lemma number_dollar (s rest : string) (m : Z) (k : nat) :
  PyFloat.number s = Some (m, k, rest) ->
  PyStr.contains dollar_sign s = PyStr.contains dollar_sign rest.
Proof.
  unfold PyFloat.number. destruct s as [|c r]; [discriminate|].
  destruct (PyFloat.is_char 46 c) eqn:Ep.
  - destruct (PyFloat.digitpart r 0) as [[[m' k'] rest']|] eqn:E; [|discriminate].
    intros H. injection H as _ _ <-. apply digitpart_dollar in E.
    unfold PyStr.contains in *. cbn [PyStr.exists_char].
    rewrite (not_dollar (PyFloat.is_char 46) c eq_refl Ep). exact E.
  - destruct (PyFloat.digitpart (String c r) 0) as [[[m' k'] [|c' r']]|] eqn:E;
      [| |discriminate].
    + intros H. injection H as _ _ <-. apply digitpart_dollar in E. exact E.
    + apply digitpart_dollar in E. rewrite E.
      destruct (PyFloat.is_char 46 c') eqn:Ep'.
      * unfold PyStr.contains. cbn [PyStr.exists_char].
        rewrite (not_dollar (PyFloat.is_char 46) c' eq_refl Ep'). simpl orb.
        destruct (PyFloat.digitpart r' m') as [[[m'' k''] rest'']|] eqn:E2.
        -- intros H. injection H as _ _ <-. apply digitpart_dollar in E2. exact E2.
        -- intros H. injection H as _ _ <-. reflexivity.
      * intros H. injection H as _ _ <-. reflexivity.
Qed.

Lemma exponent_dollar (s rest : string) (e : Z) :
  PyFloat.exponent s = Some (e, rest) ->
  PyStr.contains dollar_sign s = PyStr.contains dollar_sign rest.
Proof.
  unfold PyFloat.exponent. destruct s as [|c r].
  - intros H. injection H as _ <-. reflexivity.
  - destruct (PyFloat.is_char 101 c || PyFloat.is_char 69 c) eqn:Ee.
    + destruct (PyFloat.sign r) as [neg r1] eqn:Es.
      destruct (PyFloat.digitpart r1 0) as [[[e' k'] rest']|] eqn:Ed; [|discriminate].
      intros H. injection H as _ <-.
      apply sign_dollar in Es. apply digitpart_dollar in Ed.
      unfold PyStr.contains in *. cbn [PyStr.exists_char].
      rewrite (not_dollar (fun c => PyFloat.is_char 101 c || PyFloat.is_char 69 c) c eq_refl Ee).
      simpl orb. congruence.
    + intros H. injection H as _ <-. reflexivity.
Qed.

Lemma parse_rejects_dollar (text : string) (x : float) :
  PyFloat.parse text = Ok x -> PyStr.contains dollar_sign text = false.
Proof.
  unfold PyFloat.parse.
  destruct (PyFloat.sign (PyStr.strip text)) as [neg body] eqn:Es.
  apply sign_dollar in Es. rewrite strip_dollar in Es. rewrite Es.
  rewrite <- (lower_dollar body).
  destruct (String.eqb (PyStr.lower body) "inf" || String.eqb (PyStr.lower body) "infinity")
    eqn:Einf.
  { intros _. apply orb_true_iff in Einf as [E|E]; apply String.eqb_eq in E;
      rewrite E; reflexivity. }
  destruct (String.eqb (PyStr.lower body) "nan") eqn:Enan.
  { intros _. apply String.eqb_eq in Enan. rewrite Enan. reflexivity. }
  rewrite lower_dollar.
  destruct (PyFloat.number body) as [[[m k] rest]|] eqn:En; [|discriminate].
  destruct (PyFloat.exponent rest) as [[e [|c r]]|] eqn:Ee; try discriminate.
  intros _. apply number_dollar in En. apply exponent_dollar in Ee.
  rewrite En, Ee. reflexivity.
Qed.

Lemma contains_remove_other (c d : ascii) (s : string) :
  Ascii.eqb c d = false ->
  PyStr.contains c (PyStr.remove d s) = PyStr.contains c s.
Proof.
  intros Hcd. unfold PyStr.contains. induction s as [|x r IH]; simpl; [reflexivity|].
  destruct (Ascii.eqb x d) eqn:E.
  - apply Ascii.eqb_eq in E. subst x. rewrite Hcd, IH. reflexivity.
  - simpl. rewrite IH. reflexivity.
Qed.

(** In the currency branch the second parse, made on the text with its
    '$' left in, cannot succeed where the first has failed. *)
Lemma format_currency_value (text : string) (c : XlCell) :
  format_currency PyFloat.parse text c
  = match PyFloat.parse (PyStr.remove plus_sign (PyStr.remove comma
                           (PyStr.remove dollar_sign text))) with
    | Ok num => as_number num (currency_format num) c
    | Raise _ => with_alignment HLeft c
    end.
Proof.
  unfold format_currency, format_plain_number.
  destruct (PyFloat.parse (PyStr.remove plus_sign (PyStr.remove comma
              (PyStr.remove dollar_sign text)))) as [num|e] eqn:E1; [reflexivity|].
  destruct (PyStr.contains dollar_sign text) eqn:Ed.
  - destruct (PyFloat.parse (PyStr.remove plus_sign (PyStr.remove comma text)))
      as [num|e'] eqn:E2; [|reflexivity].
    apply parse_rejects_dollar in E2.
    rewrite !contains_remove_other in E2 by reflexivity. congruence.
  - rewrite (remove_absent dollar_sign text Ed) in E1. rewrite E1. reflexivity.
Qed.

(** X10: with Python's [float], the plain number format '#,##0.00' is never
    assigned.  The currency branch either parses the text and picks one of
    the four '$' formats, or leaves the cell as left-aligned text (its
    second attempt never succeeds); so after the pass a cell has the number
    format it had, the percentage format, or one of the four '$' formats. *)
Theorem plain_number_format_never_assigned
    (str_of_float : float -> string) (col_idx : nat) (c : XlCell) :
  let c' := format_data_cell PyFloat.parse str_of_float col_idx c in
  (forall text cell,
      format_currency PyFloat.parse text cell
      = match PyFloat.parse (PyStr.remove plus_sign (PyStr.remove comma
                               (PyStr.remove dollar_sign text))) with
        | Ok num => as_number num (currency_format num) cell
        | Raise _ => with_alignment HLeft cell
        end)
  /\ (number_format c' = number_format c
      \/ number_format c' = fmt_percent
      \/ In (number_format c') [fmt_billions; fmt_millions; fmt_thousands; fmt_currency]).
Proof.
  cbv zeta. split; [exact format_currency_value|].
  unfold format_data_cell.
  assert (Hb := select_branch_not_plain_number col_idx
                  (PyStr.strip (str_of_value str_of_float (cell_value c)))).
  change (branch_of str_of_float col_idx (with_border c))
    with (branch_of str_of_float col_idx c).
  unfold branch_of. destruct (has_content (cell_value c)); [|left; reflexivity].
  destruct (select_branch col_idx _); try (left; reflexivity); [| |congruence].
  - unfold format_percentage. destruct (PyFloat.parse _); [right; left|left]; reflexivity.
  - rewrite format_currency_value. destruct (PyFloat.parse _) as [num|e]; [|left; reflexivity].
    right. right. cbn [number_format as_number]. unfold currency_format.
    destruct (PrimFloat.leb 1000000000 _); [simpl; tauto|].
    destruct (PrimFloat.leb 1000000 _); [simpl; tauto|].
    destruct (PrimFloat.leb 1000 _); simpl; tauto.
Qed.

(** ** Column widths and sheets *)

Lemma longest_from (str_of_float : float -> string) (column : list CellValue) (start : nat) :
  let step := fun longest v =>
                if truthy v
                then Nat.max longest (String.length (str_of_value str_of_float v))
                else longest in
  let longest := fold_left step column start in
  start <= longest
  /\ (forall v, In v column -> truthy v = true ->
        String.length (str_of_value str_of_float v) <= longest)
  /\ (longest = start
      \/ exists v, In v column /\ truthy v = true
                   /\ String.length (str_of_value str_of_float v) = longest).
Proof.
  cbv zeta. revert start. induction column as [|v column IH]; intros start; simpl.
  - split; [lia | split; [tauto | left; reflexivity]].
  - destruct (IH (if truthy v
                  then Nat.max start (String.length (str_of_value str_of_float v))
                  else start)) as (H1 & H2 & H3).
    destruct (truthy v) eqn:Ev.
    + split; [lia | split].
      * intros v' [<- | Hin] Hv'; [lia | apply H2; assumption].
      * destruct H3 as [H3 | (v' & Hin & Hv' & Hl)].
        -- destruct (Nat.max_spec start (String.length (str_of_value str_of_float v)))
             as [[_ Hm] | [_ Hm]].
           ++ right. exists v.
              split; [left; reflexivity | split; [exact Ev | rewrite H3, Hm; reflexivity]].
           ++ left. rewrite H3, Hm. reflexivity.
        -- right. exists v'. split; [right; exact Hin | split; [exact Hv' | exact Hl]].
    + split; [exact H1 | split].
      * intros v' [<- | Hin] Hv'; [congruence | apply H2; assumption].
      * destruct H3 as [H3 | (v' & Hin & Hv' & Hl)]; [left; exact H3|].
        right. exists v'. split; [right; exact Hin | split; [exact Hv' | exact Hl]].
Qed.

(** X11: the width given to a column lies between 2 and 50; it leaves two
    characters of room for every cell it holds up to the cap of 50, it is 2
    when no cell has a (truthy) value, and otherwise it is the length of
    the longest such value plus two, capped at 50. *)
Theorem adjusted_width_bounds (str_of_float : float -> string) (column : list CellValue) :
  2 <= adjusted_width str_of_float column <= 50
  /\ (forall v, In v column -> truthy v = true ->
        Nat.min (String.length (str_of_value str_of_float v) + 2) 50
        <= adjusted_width str_of_float column)
  /\ (adjusted_width str_of_float column = 2
      \/ exists v, In v column /\ truthy v = true
                   /\ adjusted_width str_of_float column
                      = Nat.min (String.length (str_of_value str_of_float v) + 2) 50).
Proof.
  unfold adjusted_width, max_length.
  destruct (longest_from str_of_float column 0) as (_ & H2 & H3). cbv zeta in *.
  split; [lia | split].
  - intros v Hin Hv. specialize (H2 v Hin Hv). lia.
  - destruct H3 as [-> | (v & Hin & Hv & Hl)]; [left; reflexivity|].
    right. exists v. rewrite Hl. split; [exact Hin | split; [exact Hv | reflexivity]].
Qed.






Lemma format_cells_from_length
    (float_of_str : string -> result float) (str_of_float : float -> string)
    (row : list XlCell) :
  forall col_idx,
    length (format_cells_from float_of_str str_of_float col_idx row) = length row.
Proof.
  induction row as [|c row IH]; intros col_idx; simpl; [reflexivity|].
  rewrite IH. reflexivity.
Qed.

Lemma format_cells_from_nth
    (float_of_str : string -> result float) (str_of_float : float -> string)
    (row : list XlCell) (d : XlCell) :
  forall col_idx k, k < length row ->
    nth k (format_cells_from float_of_str str_of_float col_idx row) d
    = format_data_cell float_of_str str_of_float (col_idx + k) (nth k row d).
Proof.
  induction row as [|c row IH]; intros col_idx k Hk; simpl in Hk; [lia|].
  destruct k as [|k]; simpl.
  - rewrite Nat.add_0_r. reflexivity.
  - rewrite IH by lia. rewrite Nat.add_succ_r. reflexivity.
Qed.

(** X16: the pass over the data rows keeps the number of rows and the
    length of every row; the cell at position k of a row (from 0) is
    formatted as column k + 1, so the first two cells of every row keep
    their value and number format and end up left-aligned or, when blank,
    untouched but for the border. *)
Theorem format_data_rows_shape
    (float_of_str : string -> result float) (str_of_float : float -> string)
    (data_rows : list (list XlCell)) (d : XlCell) :
  let formatted := format_data_rows float_of_str str_of_float data_rows in
  map (@length XlCell) formatted = map (@length XlCell) data_rows
  /\ (forall i k,
        i < length data_rows -> k < length (nth i data_rows []) ->
        nth k (nth i formatted []) d
        = format_data_cell float_of_str str_of_float (k + 1) (nth k (nth i data_rows []) d))
  /\ (forall i k,
        i < length data_rows -> k < length (nth i data_rows []) -> k < 2 ->
        cell_value (nth k (nth i formatted []) d) = cell_value (nth k (nth i data_rows []) d)
        /\ number_format (nth k (nth i formatted []) d)
           = number_format (nth k (nth i data_rows []) d)).
Proof.
  cbv zeta. unfold format_data_rows.
  assert (Hcell : forall i k,
            i < length data_rows -> k < length (nth i data_rows []) ->
            nth k (nth i (map (format_cells_from float_of_str str_of_float 1) data_rows) []) d
            = format_data_cell float_of_str str_of_float (k + 1)
                (nth k (nth i data_rows []) d)).
  { intros i k Hi Hk.
    change (@nil XlCell) with (format_cells_from float_of_str str_of_float 1 []) at 1.
    rewrite map_nth, format_cells_from_nth by exact Hk.
    rewrite Nat.add_comm. reflexivity. }
  split; [|split; [exact Hcell|]].
  - rewrite map_map. apply map_ext. intros row. apply format_cells_from_length.
  - intros i k Hi Hk Hk2. rewrite (Hcell i k Hi Hk).
    destruct (format_data_cell_cases float_of_str str_of_float (k + 1)
                (nth k (nth i data_rows []) d)) as (_ & Hv & _).
    destruct Hv as [Hv | (num & _ & _ & Hcol & _)]; [exact Hv | lia].
Qed.

Lemma format_data_rows_shape_witness :
  cell_value
    (nth 1 (nth 0 (format_data_rows PyFloat.parse (fun _ => "")
                     [[loaded_cell (Some "2330"); loaded_cell (Some "1,000");
                       loaded_cell (Some "1,000")]]) [])
       (loaded_cell None))
  = VText "1,000".
Proof.
  apply (proj2 (proj2 (format_data_rows_shape PyFloat.parse (fun _ => "")
                         [[loaded_cell (Some "2330"); loaded_cell (Some "1,000");
                           loaded_cell (Some "1,000")]] (loaded_cell None))) 0 1);
    simpl; lia.
Defined.

(** ** The shape of a reconciled frame *)

Lemma frame_insert_value (df : DataFrame) (label : string) (v : Cell) :
  columns df <> [] -> has_column df label = false ->
  frame_insert df 1 label v
  = Ok {| columns := insert_at 1 label (columns df);
          data := map (insert_at 1 v) (data df) |}.
Proof.
  intros Hc Hl. unfold frame_insert. rewrite Hl.
  destruct (columns df) as [|c0 ct] eqn:E; [congruence|]. reflexivity.
Qed.

(** X15: when the reconciler returns, the frame has the rows it had, in
    number, and the columns it had, except that a missing 'Company Name'
    column has been inserted in second position. *)
Theorem split_ticker_column_shape (df df' : DataFrame) :
  split_ticker_column df = Ok df' ->
  length (data df') = length (data df)
  /\ (columns df' = columns df
      \/ (has_column df "Company Name" = false
          /\ columns df' = insert_at 1 "Company Name" (columns df))).
Proof.
  unfold split_ticker_column.
  destruct (has_column df "Ticker") eqn:Hh; cbn [negb].
  2:{ intros H. injection H as <-. split; [reflexivity | left; reflexivity]. }
  assert (Hcols : columns df <> []).
  { unfold has_column, PyStr.mem in Hh. destruct (columns df); [discriminate | discriminate]. }
  destruct (locate df "Company Name") as [|npos|] eqn:Hn; [| |discriminate].
  - apply locate_none in Hn.
    rewrite (frame_insert_value df "Company Name" (Some "") Hcols Hn). cbn [rbind].
    match goal with
    | |- split_ticker_assign ?d = _ -> _ => set (dfi := d)
    end.
    assert (Hni : locate dfi "Company Name" = OneColumn 1).
    { unfold locate. cbn [columns dfi].
      rewrite positions_insert_name; [reflexivity | exact Hn | exact Hcols]. }
    destruct (locate dfi "Ticker") as [|tpos|] eqn:Hti;
      try (unfold split_ticker_assign; rewrite Hti; cbv beta iota; discriminate).
    rewrite (split_ticker_assign_value dfi tpos 1 Hti Hni).
    intros H. injection H as <-. cbn [data columns assign_at].
    rewrite !assign_rows_length. cbn [dfi data]. rewrite length_map.
    split; [reflexivity | right; split; [exact Hn | reflexivity]].
  - destruct (notna_any (series_at df npos)).
    { intros H. injection H as <-. split; [reflexivity | left; reflexivity]. }
    destruct (locate df "Ticker") as [|tpos|] eqn:Ht;
      try (unfold split_ticker_assign; rewrite Ht; cbv beta iota; discriminate).
    rewrite (split_ticker_assign_value df tpos npos Ht Hn).
    intros H. injection H as <-. cbn [data columns assign_at].
    rewrite !assign_rows_length. split; [reflexivity | left; reflexivity].
Qed.

Lemma split_ticker_column_shape_witness :
  length (data {| columns := ["Ticker"; "Company Name"; "Price"];
                  data := [[Some "AAPL"; Some "Apple Inc."; Some "1.00"]] |}) = 1.
Proof.
  apply (split_ticker_column_shape
           {| columns := ["Ticker"; "Price"];
              data := [[Some "AAPL Apple Inc."; Some "1.00"]] |}
           {| columns := ["Ticker"; "Company Name"; "Price"];
              data := [[Some "AAPL"; Some "Apple Inc."; Some "1.00"]] |}).
  reflexivity.
Defined.

Lemma adjusted_width_bounds_witness :
  adjusted_width (fun _ => "") [VText "Ticker"; VText "AAPL"; VNone; VText ""] = 8
  /\ Nat.min (String.length "AAPL" + 2) 50
     <= adjusted_width (fun _ => "") [VText "Ticker"; VText "AAPL"; VNone; VText ""].
Proof.
  split; [reflexivity|].
  apply (proj1 (proj2 (adjusted_width_bounds (fun _ => "")
                         [VText "Ticker"; VText "AAPL"; VNone; VText ""]))
           (VText "AAPL")).
  - simpl. tauto.
  - reflexivity.
Defined.
